(** * image_editor: the Gemini service wrapper and the editor's state handlers

    A shallow embedding of [src/services/geminiService.ts], [src/types.ts]
    and the event handlers of [src/components/Editor.tsx].

    Conventions.
    - A JavaScript string is a [string]; each character is one code unit in
      the range 0..255.
    - An optional property ([image?: string], [part.text],
      [candidate.content], ...) is an [option]; [None] is [undefined].
    - A promise that has settled is a [Settled] value; [await] on a rejected
      promise throws its reason, so the same type serves for the body of a
      [try] block.
    - The vendor call [ai.models.generateContent] is a parameter of the
      service function; every computation carries the list of requests it
      has submitted to it. *)

From Stdlib Require Import String Ascii List Bool Arith Lia.
Import ListNotations.
Open Scope string_scope.
Open Scope list_scope.

(** ** JavaScript string primitives used by the sources *)

Module JS.

(** [Boolean(s)] for a string: only the empty string is falsy. *)
Definition truthy (s : string) : bool :=
  match s with
  | EmptyString => false
  | String _ _ => true
  end.

(** [Boolean(v)] for a value that is a string or [undefined]/[null]. *)
Definition truthy_opt (o : option string) : bool :=
  match o with
  | Some s => truthy s
  | None => false
  end.

(** [v || d] where [v] is a string or [undefined] and [d] a string. *)
Definition or_else (o : option string) (d : string) : string :=
  match o with
  | Some s => if truthy s then s else d
  | None => d
  end.

(** [s.startsWith(p)]. *)
Definition startsWith (s p : string) : bool := String.prefix p s.

(** What is left of [s] after the literal [p], when [s] begins with it. *)
Fixpoint strip_prefix (p s : string) : option string :=
  match p, s with
  | EmptyString, _ => Some s
  | String a p', String b s' =>
      if Ascii.eqb a b then strip_prefix p' s' else None
  | String _ _, EmptyString => None
  end.

(** A regular-expression alternation [(a1|a2|...)] followed by the rest of
    the pattern [k]: the alternatives are tried from left to right and the
    first one after which [k] matches wins. *)
Fixpoint alternation (alts : list string) (k : string -> option string)
         (s : string) : option string :=
  match alts with
  | [] => None
  | a :: alts' =>
      match strip_prefix a s with
      | Some rest =>
          match k rest with
          | Some r => Some r
          | None => alternation alts' k s
          end
      | None => alternation alts' k s
      end
  end.

(** White space removed by [String.prototype.trim], among the code units
    0..255: TAB, LF, VT, FF, CR, SPACE and NO-BREAK SPACE. *)
Definition is_white_space (c : ascii) : bool :=
  existsb (Nat.eqb (nat_of_ascii c)) [9; 10; 11; 12; 13; 32; 160].

Fixpoint trimStart (s : string) : string :=
  match s with
  | EmptyString => EmptyString
  | String c s' => if is_white_space c then trimStart s' else s
  end.

Fixpoint trimEnd (s : string) : string :=
  match s with
  | EmptyString => EmptyString
  | String c s' =>
      match trimEnd s' with
      | EmptyString =>
          if is_white_space c then EmptyString else String c EmptyString
      | String d r => String c (String d r)
      end
  end.

(** [s.trim()]. *)
Definition trim (s : string) : string := trimEnd (trimStart s).

(** The double-quote character, as a one-character string. *)
Definition dquote : string := String (ascii_of_nat 34) EmptyString.

End JS.

(** [x] is the first element of [l] that passes the test [P]. *)
Definition first_such {A} (P : A -> bool) (l : list A) (x : A) : Prop :=
  exists before after,
    l = before ++ x :: after /\
    Forall (fun y => P y = false) before /\
    P x = true.

(** No element of [l] passes the test [P]. *)
Definition none_such {A} (P : A -> bool) (l : list A) : Prop :=
  Forall (fun y => P y = false) l.

(** Every character of [s] is white space (so also when [s] is empty). *)
Definition blank (s : string) : Prop :=
  Forall (fun c => JS.is_white_space c = true) (list_ascii_of_string s).

(** ** Settled promises and the request log *)

(** An object that is thrown, as far as the handlers look at it: they
    read its [message] only.  An object without a [message] counts as one
    whose message is empty, the [||] of the handler treating both
    alike.  ([console.error] in the service's handler writes to the
    console and is left out.) *)
Record JsError := { message : string }.

Inductive Nullish : Type := JsNull | JsUndefined.

(** What a failing call throws or rejects with: the handlers are typed
    [catch (error: any)], so besides an object it may be [null] or
    [undefined]. *)
Inductive Thrown : Type :=
| ThrownError (e : JsError)
| ThrownNullish (v : Nullish).

Coercion ThrownError : JsError >-> Thrown.

Inductive Settled (A : Type) : Type :=
| Fulfilled (a : A)
| Rejected (reason : Thrown).
Arguments Fulfilled {A} a.
Arguments Rejected {A} reason.

(** The [TypeError]s the engine raises when the code reads a property of
    [null] or [undefined], or iterates over [undefined].  The texts are
    V8's. *)
Module Engine.

Definition nullish_name (v : Nullish) : string :=
  match v with
  | JsNull => "null"
  | JsUndefined => "undefined"
  end.

(** Reading [v.property] where [v] is [null] or [undefined]. *)
Definition cannot_read (v : Nullish) (property : string) : JsError :=
  {| message := "Cannot read properties of " ++ nullish_name v
                  ++ " (reading '" ++ property ++ "')" |}.

(** [for (... of variable)] where the variable holds [undefined]. *)
Definition not_iterable (variable : string) : JsError :=
  {| message := variable ++ " is not iterable" |}.

End Engine.

(** ** The vendor SDK's request and response shapes, as the service uses them *)

Module Sdk.

(** An element of the [parts] array of a request: [{ text }] or
    [{ inlineData: { mimeType, data } }]. *)
Inductive RequestPart : Type :=
| TextPart (text : string)
| InlineDataPart (mimeType data : string).

Record Contents := { parts : list RequestPart }.

Record GenerateContentParameters := {
  model : string;
  contents : Contents
}.

(** [part.inlineData] of a response part. *)
Record Blob := {
  mimeType : option string;
  data : option string
}.

(** A response part; the service reads [inlineData] and [text]. *)
Record Part := {
  inlineData : option Blob;
  text : option string
}.

(** [content.parts], an optional property. *)
Record Content := { content_parts : option (list Part) }.

(** A candidate; [content] is an optional property. *)
Record Candidate := { content : option Content }.

Record GenerateContentResponse := {
  candidates : option (list Candidate)
}.

(** [ai.models.generateContent]: the promise it returns either fulfils
    with a response or rejects with an error. *)
Definition GenerateContent : Type :=
  GenerateContentParameters -> Settled GenerateContentResponse.

End Sdk.

(** A computation that may call the model: the requests submitted, in
    order, and how it settled. *)
Definition Async (A : Type) : Type :=
  (list Sdk.GenerateContentParameters * Settled A)%type.

Definition ret {A} (a : A) : Async A := ([], Fulfilled a).

Definition throw {A} (reason : Thrown) : Async A := ([], Rejected reason).

Definition bind {A B} (m : Async A) (f : A -> Async B) : Async B :=
  match m with
  | (log, Fulfilled a) => let (log', r) := f a in (log ++ log', r)
  | (log, Rejected e) => (log, Rejected e)
  end.

(** [try { m } catch (error) { h error }]. *)
Definition try_catch {A} (m : Async A) (h : Thrown -> Async A) : Async A :=
  match m with
  | (log, Rejected e) => let (log', r) := h e in (log ++ log', r)
  | (log, Fulfilled a) => (log, Fulfilled a)
  end.

(** [await generateContent(request)]. *)
Definition await_call (generateContent : Sdk.GenerateContent)
           (request : Sdk.GenerateContentParameters)
  : Async Sdk.GenerateContentResponse :=
  ([request], generateContent request).

Definition requests {A} (m : Async A) : list Sdk.GenerateContentParameters :=
  fst m.

Definition outcome {A} (m : Async A) : Settled A := snd m.

Notation "x <- m ;; k" := (bind m (fun x => k))
  (at level 61, m at next level, right associativity).

(** ** [src/types.ts] *)

Record EditResponse := {
  success : bool;
  image : option string;
  error : option string
}.

Inductive AppState : Type := IDLE | PROCESSING | SUCCESS | ERROR.

(** The string value of each member of the enum. *)
Definition AppState_value (s : AppState) : string :=
  match s with
  | IDLE => "IDLE"
  | PROCESSING => "PROCESSING"
  | SUCCESS => "SUCCESS"
  | ERROR => "ERROR"
  end.

(** The two shapes of object literal the service returns: a success
    carrying a non-empty image string and no error, or a failure carrying a
    non-empty error string and no image. *)
Inductive response_shape : EditResponse -> Prop :=
| shape_success (img : string) :
    img <> EmptyString ->
    response_shape {| success := true; image := Some img; error := None |}
| shape_failure (msg : string) :
    msg <> EmptyString ->
    response_shape {| success := false; image := None; error := Some msg |}.

(** ** [src/services/geminiService.ts] *)

Module Service.

(** An element of the [imageData] argument. *)
Record ImageData := {
  base64Data : string;
  mimeType : string
}.

Definition no_image_data_message : string :=
  "No image data provided for editing.".

Definition no_candidates_message : string :=
  "No response candidates from Gemini.".

Definition no_image_returned_message : string :=
  "The model processed the request but did not return an image. Try rephrasing your prompt or ensure the request is valid for the provided images.".

Definition unexpected_error_message : string :=
  "An unexpected error occurred while communicating with Gemini.".

Definition model_name : string := "gemini-2.5-flash-image".

(** [s.replace(/^data:image\/(png|jpeg|jpg|webp);base64,/, empty)]: the
    pattern is anchored at the start and not global, so what is left is
    the input after the match, or the input itself when nothing
    matches. *)
Definition data_uri_prefix_match (s : string) : option string :=
  match JS.strip_prefix "data:image/" s with
  | Some rest =>
      JS.alternation ["png"; "jpeg"; "jpg"; "webp"]
                     (JS.strip_prefix ";base64,") rest
  | None => None
  end.

Definition clean_base64 (s : string) : string :=
  match data_uri_prefix_match s with
  | Some rest => rest
  | None => s
  end.

(** The callback of [imageData.map]. *)
Definition image_part (img : ImageData) : Sdk.RequestPart :=
  Sdk.InlineDataPart (mimeType img) (clean_base64 (base64Data img)).

(** The test [part.inlineData && part.inlineData.data]. *)
Definition has_inline_data (part : Sdk.Part) : bool :=
  match Sdk.inlineData part with
  | Some blob => JS.truthy_opt (Sdk.data blob)
  | None => false
  end.

(** The display string built for a part that passed the test. *)
Definition data_uri (blob : Sdk.Blob) : string :=
  let generatedImageBase64 :=
    match Sdk.data blob with Some d => d | None => EmptyString end in
  let returnedMime := JS.or_else (Sdk.mimeType blob) "image/png" in
  "data:" ++ returnedMime ++ ";base64," ++ generatedImageBase64.

(** The [for (const part of parts)] loop with its [break]: the value of
    [generatedImageBase64] after the loop ([None] is [null]). *)
Fixpoint find_generated_image (parts : list Sdk.Part) : option string :=
  match parts with
  | [] => None
  | part :: rest =>
      match Sdk.inlineData part with
      | Some blob =>
          if JS.truthy_opt (Sdk.data blob) then Some (data_uri blob)
          else find_generated_image rest
      | None => find_generated_image rest
      end
  end.

(** The callback [p => p.text], as a test. *)
Definition has_text (p : Sdk.Part) : bool := JS.truthy_opt (Sdk.text p).

(** [parts.find(p => p.text)]. *)
Definition find_text_part (parts : list Sdk.Part) : option Sdk.Part :=
  find has_text parts.

(** The search through [parts] and the two [return]s that follow it. *)
Definition parse_parts (parts : list Sdk.Part) : EditResponse :=
  let generatedImageBase64 := find_generated_image parts in
  if JS.truthy_opt generatedImageBase64 then
    {| success := true; image := generatedImageBase64; error := None |}
  else
    let textPart := find_text_part parts in
    let textPart_text :=
      match textPart with
      | Some p => Sdk.text p
      | None => None
      end in
    {| success := false; image := None;
       error := Some (JS.or_else textPart_text
                                 no_image_returned_message) |}.

(** Everything after [await generateContent] inside the [try] block.
    Reading [candidates[0].content.parts] throws when the candidate has
    no [content], and the [for ... of] throws when the content has no
    [parts]. *)
Definition parse_response (response : Sdk.GenerateContentResponse)
  : Async EditResponse :=
  match Sdk.candidates response with
  | None | Some [] =>
      ret {| success := false; image := None;
             error := Some no_candidates_message |}
  | Some (candidate :: _) =>
      match Sdk.content candidate with
      | None => throw (Engine.cannot_read JsUndefined "parts")
      | Some content =>
          match Sdk.content_parts content with
          | None => throw (Engine.not_iterable "parts")
          | Some parts => ret (parse_parts parts)
          end
      end
  end.

(** The [catch] block: reading [error.message] itself throws when what
    was caught is [null] or [undefined]. *)
Definition catch_block (error : Thrown) : Async EditResponse :=
  match error with
  | ThrownError e =>
      ret {| success := false; image := None;
             error := Some (JS.or_else (Some (message e))
                                       unexpected_error_message) |}
  | ThrownNullish v => throw (Engine.cannot_read v "message")
  end.

(** The request built from the arguments. *)
Definition build_request (imageData : list ImageData) (prompt : string)
  : Sdk.GenerateContentParameters :=
  let imageParts := map image_part imageData in
  let allContentsParts := Sdk.TextPart prompt :: imageParts in
  {| Sdk.model := model_name;
     Sdk.contents := {| Sdk.parts := allContentsParts |} |}.

Definition editImageWithGemini (generateContent : Sdk.GenerateContent)
           (imageData : list ImageData) (prompt : string)
  : Async EditResponse :=
  try_catch
    (if Nat.eqb (List.length imageData) 0 then
       ret {| success := false; image := None;
              error := Some no_image_data_message |}
     else
       response <- await_call generateContent
                              (build_request imageData prompt) ;;
       parse_response response)
    catch_block.

End Service.

(** ** [src/components/Editor.tsx] *)

Module Editor.

(** A browser [File]: its name, its content type, the base64 text of its
    bytes, and whether a [FileReader] manages to read it. *)
Record File := {
  name : string;
  type : string;
  base64 : string;
  readable : bool
}.

Record UploadedImage := {
  id : string;
  file : File;
  previewUrl : string;
  mimeType : string
}.

(** The five [useState] cells of the component. *)
Record EditorState := {
  uploadedImages : list UploadedImage;
  resultUrl : option string;
  prompt : string;
  appState : AppState;
  errorMessage : string
}.

(** The state right after the component mounts. *)
Definition initial : EditorState :=
  {| uploadedImages := [];
     resultUrl := None;
     prompt := "Remove from this image those green markers";
     appState := IDLE;
     errorMessage := EmptyString |}.

(** The state setters; the last two take an updater function, as the
    handlers call them. *)
Definition setResultUrl (v : option string) (st : EditorState) :=
  {| uploadedImages := uploadedImages st; resultUrl := v;
     prompt := prompt st; appState := appState st;
     errorMessage := errorMessage st |}.

Definition setAppState (v : AppState) (st : EditorState) :=
  {| uploadedImages := uploadedImages st; resultUrl := resultUrl st;
     prompt := prompt st; appState := v;
     errorMessage := errorMessage st |}.

Definition setErrorMessage (v : string) (st : EditorState) :=
  {| uploadedImages := uploadedImages st; resultUrl := resultUrl st;
     prompt := prompt st; appState := appState st;
     errorMessage := v |}.

Definition updateErrorMessage (f : string -> string) (st : EditorState) :=
  setErrorMessage (f (errorMessage st)) st.

Definition updateUploadedImages
           (f : list UploadedImage -> list UploadedImage)
           (st : EditorState) :=
  {| uploadedImages := f (uploadedImages st); resultUrl := resultUrl st;
     prompt := prompt st; appState := appState st;
     errorMessage := errorMessage st |}.

(** What the handlers ask of the browser besides files: the clock, the
    random source and the object-URL registry, each indexed by the number
    of the request made to it (an accepted file makes one request to
    each). *)
Record Browser := {
  Date_now : nat -> string;
  Math_random : nat -> string;
  createObjectURL : nat -> File -> string
}.

Definition skip_message (selectedFile : File) : string :=
  "File " ++ JS.dquote ++ name selectedFile ++ JS.dquote
          ++ " is not a valid image. Skipping.".

(** The updater passed to [setErrorMessage] for a skipped file. *)
Definition append_skip (selectedFile : File) (prev : string) : string :=
  (if JS.truthy prev then prev ++ " " else EmptyString)
    ++ skip_message selectedFile.

Definition new_image (env : Browser) (i : nat) (selectedFile : File)
  : UploadedImage :=
  {| id := name selectedFile ++ "-" ++ Date_now env i
                             ++ "-" ++ Math_random env i;
     file := selectedFile;
     previewUrl := createObjectURL env i selectedFile;
     mimeType := type selectedFile |}.

(** The [for] loop of [processFiles]: [i] counts the files accepted so
    far (the browser is asked only for those), [newImages] is the array
    being filled, [st] the state with the updates queued so far
    applied. *)
Fixpoint processFiles_loop (env : Browser) (i : nat)
         (selectedFiles : list File) (newImages : list UploadedImage)
         (st : EditorState) : list UploadedImage * EditorState :=
  match selectedFiles with
  | [] => (newImages, st)
  | selectedFile :: rest =>
      if negb (JS.startsWith (type selectedFile) "image/") then
        processFiles_loop env i rest newImages
                          (updateErrorMessage (append_skip selectedFile) st)
      else
        processFiles_loop env (S i) rest
                          (newImages ++ [new_image env i selectedFile]) st
  end.

Definition processFiles (env : Browser) (t0 : nat)
           (selectedFiles : list File) (st : EditorState) : EditorState :=
  let st0 := setErrorMessage EmptyString st in
  let (newImages, st1) := processFiles_loop env t0 selectedFiles [] st0 in
  setAppState IDLE
    (setResultUrl None
       (updateUploadedImages (fun prev => prev ++ newImages) st1)).

(** [reader.readAsDataURL(blob)] followed by [reader.result]. *)
Definition readAsDataURL (blob : File) : string :=
  "data:"
    ++ (if JS.truthy (type blob) then type blob
        else "application/octet-stream")
    ++ ";base64," ++ base64 blob.

(** The promise resolves from [onload] and rejects from [onerror]. *)
Definition convertBlobToBase64 (blob : File) : Settled string :=
  if readable blob then Fulfilled (readAsDataURL blob)
  else Rejected {| message := EmptyString |}.

(** [Promise.all]: the values in order, or the first rejection. *)
Fixpoint promise_all {A} (ps : list (Settled A)) : Settled (list A) :=
  match ps with
  | [] => Fulfilled []
  | Fulfilled a :: ps' =>
      match promise_all ps' with
      | Fulfilled l => Fulfilled (a :: l)
      | Rejected e => Rejected e
      end
  | Rejected e :: _ => Rejected e
  end.

(** The callback of [uploadedImages.map] in [handleGenerate]. *)
Definition image_part_promise (img : UploadedImage)
  : Settled Service.ImageData :=
  match convertBlobToBase64 (file img) with
  | Fulfilled base64Data =>
      Fulfilled {| Service.base64Data := base64Data;
                   Service.mimeType := mimeType img |}
  | Rejected e => Rejected e
  end.

Definition missing_input_message : string :=
  "Please upload at least one image and provide a prompt.".

(** The submission check at the top of [handleGenerate]. *)
Definition submission_blocked (st : EditorState) : bool :=
  Nat.eqb (List.length (uploadedImages st)) 0
  || negb (JS.truthy (JS.trim (prompt st))).

(** [handleGenerate] up to its first [await]. *)
Definition handleGenerate_begin (st : EditorState) : EditorState :=
  if submission_blocked st then setErrorMessage missing_input_message st
  else setErrorMessage EmptyString (setAppState PROCESSING st).

(** The awaited part of the [try] block: it reads [uploadedImages] and
    [prompt] of the render [st] in which the handler was created. *)
Definition handleGenerate_await (generateContent : Sdk.GenerateContent)
           (st : EditorState) : Async EditResponse :=
  imageParts <- ([], promise_all (map image_part_promise
                                      (uploadedImages st))) ;;
  Service.editImageWithGemini generateContent imageParts (prompt st).

(** The state updates once the awaited part has settled: the [if] at the
    end of the [try] block, or the [catch] block. *)
Definition handleGenerate_finish (settled : Settled EditResponse)
           (st : EditorState) : EditorState :=
  match settled with
  | Fulfilled response =>
      if success response && JS.truthy_opt (image response) then
        setAppState SUCCESS (setResultUrl (image response) st)
      else
        setErrorMessage
          (JS.or_else (error response) "Failed to generate image.")
          (setAppState ERROR st)
  | Rejected _ =>
      setErrorMessage "An unexpected error occurred." (setAppState ERROR st)
  end.

(** One whole generate action with nothing else happening meanwhile:
    the requests submitted and the final state. *)
Definition handleGenerate (generateContent : Sdk.GenerateContent)
           (st : EditorState)
  : list Sdk.GenerateContentParameters * EditorState :=
  if submission_blocked st then ([], handleGenerate_begin st)
  else
    let task := handleGenerate_await generateContent st in
    (requests task,
     handleGenerate_finish (outcome task) (handleGenerate_begin st)).

End Editor.

(** ** [src/components/Editor.tsx]: the other handlers and the event loop *)

Module Ui.

(** [appState === v]. *)
Definition AppState_eqb (a b : AppState) : bool :=
  match a, b with
  | IDLE, IDLE | PROCESSING, PROCESSING | SUCCESS, SUCCESS | ERROR, ERROR =>
      true
  | _, _ => false
  end.

(** [setPrompt(e.target.value)], the textarea's [onChange]. *)
Definition setPrompt (v : string) (st : Editor.EditorState)
  : Editor.EditorState :=
  {| Editor.uploadedImages := Editor.uploadedImages st;
     Editor.resultUrl := Editor.resultUrl st;
     Editor.prompt := v;
     Editor.appState := Editor.appState st;
     Editor.errorMessage := Editor.errorMessage st |}.

(** [hasImages]. *)
Definition hasImages (st : Editor.EditorState) : bool :=
  Nat.ltb 0 (List.length (Editor.uploadedImages st)).

(** The [disabled] attribute of the Generate button. *)
Definition generate_disabled (st : Editor.EditorState) : bool :=
  Nat.eqb (List.length (Editor.uploadedImages st)) 0
  || negb (JS.truthy (JS.trim (Editor.prompt st)))
  || AppState_eqb (Editor.appState st) PROCESSING.

(** [handleFileChange] and [handleDrop]: the file list of the event is
    [null] ([None]) or a list; only a non-empty list reaches
    [processFiles].  (Resetting the input element's value touches the DOM
    only and is left out.) *)
Definition handleFileChange (env : Editor.Browser) (t0 : nat)
           (files : option (list Editor.File)) (st : Editor.EditorState)
  : Editor.EditorState :=
  match files with
  | Some (f :: rest) => Editor.processFiles env t0 (f :: rest) st
  | Some [] | None => st
  end.

Definition handleDrop (env : Editor.Browser) (t0 : nat)
           (files : option (list Editor.File)) (st : Editor.EditorState)
  : Editor.EditorState :=
  match files with
  | Some (f :: rest) => Editor.processFiles env t0 (f :: rest) st
  | Some [] | None => st
  end.

(** [removeImage]: the object URLs handed to [URL.revokeObjectURL], and
    the state after the queued updates. *)
Definition removeImage (idToRemove : string) (st : Editor.EditorState)
  : list string * Editor.EditorState :=
  let prev := Editor.uploadedImages st in
  let updatedImages :=
    filter (fun img => negb (String.eqb (Editor.id img) idToRemove)) prev in
  let imageToRemove :=
    find (fun img => String.eqb (Editor.id img) idToRemove) prev in
  let revoked :=
    match imageToRemove with
    | Some img => [Editor.previewUrl img]
    | None => []
    end in
  let st1 :=
    if Nat.eqb (List.length updatedImages) 0 then
      Editor.setAppState IDLE (Editor.setResultUrl None st)
    else st in
  (revoked, Editor.updateUploadedImages (fun _ => updatedImages) st1).

(** [clearAllImages]. *)
Definition clearAllImages (st : Editor.EditorState)
  : list string * Editor.EditorState :=
  (map Editor.previewUrl (Editor.uploadedImages st),
   Editor.setErrorMessage EmptyString
     (Editor.setAppState IDLE
        (Editor.setResultUrl None
           (Editor.updateUploadedImages (fun _ => []) st)))).

(** What can happen to the mounted component: one of its handlers runs,
    or one of the generate actions still awaiting its call resumes. *)
Inductive Event : Type :=
| FileChange (files : option (list Editor.File))
| Drop (files : option (list Editor.File))
| RemoveImage (idToRemove : string)
| ClearAllImages
| PromptChange (v : string)
| Generate
| Settle (n : nat).

(** The component between two events: its state, the renders captured by
    the generate actions that have not settled yet (oldest first), the
    number of requests made to the browser's clock, random source and
    URL registry, and the object URLs revoked so far. *)
Record Session := {
  editor : Editor.EditorState;
  outstanding : list Editor.EditorState;
  ticks : nat;
  revoked : list string
}.

Definition mounted : Session :=
  {| editor := Editor.initial; outstanding := []; ticks := 0;
     revoked := [] |}.

Definition files_count (files : option (list Editor.File)) : nat :=
  match files with
  | Some l => List.length l
  | None => 0
  end.

(** How many of the files [processFiles] accepts. *)
Definition accepted_count (files : option (list Editor.File)) : nat :=
  match files with
  | Some l =>
      List.length
        (filter (fun f => JS.startsWith (Editor.type f) "image/") l)
  | None => 0
  end.

(** The list without its [n]-th element. *)
Fixpoint remove_nth {A} (n : nat) (l : list A) : list A :=
  match n, l with
  | _, [] => []
  | O, _ :: l' => l'
  | S n', x :: l' => x :: remove_nth n' l'
  end.

(** One event.  A handler runs to its end or to its first [await]; the
    awaited part of a generate action runs on the render it captured and
    its state updates land on the state current when it settles. *)
Definition step (generateContent : Sdk.GenerateContent)
           (env : Editor.Browser) (s : Session) (e : Event) : Session :=
  match e with
  | FileChange files =>
      {| editor := handleFileChange env (ticks s) files (editor s);
         outstanding := outstanding s;
         ticks := ticks s + accepted_count files;
         revoked := revoked s |}
  | Drop files =>
      {| editor := handleDrop env (ticks s) files (editor s);
         outstanding := outstanding s;
         ticks := ticks s + accepted_count files;
         revoked := revoked s |}
  | RemoveImage idToRemove =>
      {| editor := snd (removeImage idToRemove (editor s));
         outstanding := outstanding s;
         ticks := ticks s;
         revoked := revoked s ++ fst (removeImage idToRemove (editor s)) |}
  | ClearAllImages =>
      {| editor := snd (clearAllImages (editor s));
         outstanding := outstanding s;
         ticks := ticks s;
         revoked := revoked s ++ fst (clearAllImages (editor s)) |}
  | PromptChange v =>
      {| editor := setPrompt v (editor s);
         outstanding := outstanding s;
         ticks := ticks s;
         revoked := revoked s |}
  | Generate =>
      {| editor := Editor.handleGenerate_begin (editor s);
         outstanding :=
           if Editor.submission_blocked (editor s) then outstanding s
           else outstanding s ++ [editor s];
         ticks := ticks s;
         revoked := revoked s |}
  | Settle n =>
      match nth_error (outstanding s) n with
      | Some render =>
          {| editor :=
               Editor.handleGenerate_finish
                 (outcome (Editor.handleGenerate_await generateContent
                                                       render))
                 (editor s);
             outstanding := remove_nth n (outstanding s);
             ticks := ticks s;
             revoked := revoked s |}
      | None => s
      end
  end.

(** The session after a sequence of events, from the mounted component. *)
Definition run (generateContent : Sdk.GenerateContent)
           (env : Editor.Browser) (events : list Event) : Session :=
  fold_left (step generateContent env) events mounted.

(** An uploaded image as [processFiles] makes them: its content type is
    its file's, and that type starts with [image/]. *)
Definition from_image_file (img : Editor.UploadedImage) : Prop :=
  Editor.mimeType img = Editor.type (Editor.file img) /\
  JS.startsWith (Editor.type (Editor.file img)) "image/" = true.

End Ui.

(** ** Concrete inputs used in the examples below *)

Module Sample.

Definition png_file : Editor.File :=
  {| Editor.name := "photo.png"; Editor.type := "image/png";
     Editor.base64 := "iVBORw0KGgo="; Editor.readable := true |}.

Definition gif_file : Editor.File :=
  {| Editor.name := "anim.gif"; Editor.type := "image/gif";
     Editor.base64 := "R0lGODlh"; Editor.readable := true |}.

Definition text_file : Editor.File :=
  {| Editor.name := "notes.txt"; Editor.type := "text/plain";
     Editor.base64 := "aGVsbG8="; Editor.readable := true |}.

Definition browser : Editor.Browser :=
  {| Editor.Date_now := fun _ => "1700000000000";
     Editor.Math_random := fun _ => "0.5";
     Editor.createObjectURL := fun _ f => ("blob:" ++ Editor.name f)%string |}.

Definition imageData : list Service.ImageData :=
  [ {| Service.base64Data := "data:image/png;base64,iVBORw0KGgo=";
       Service.mimeType := "image/png" |} ].

Definition prompt : string := "Remove the green markers".

(** A response part carrying an image without a content type. *)
Definition untyped_image : Sdk.Part :=
  {| Sdk.inlineData := Some {| Sdk.mimeType := None;
                               Sdk.data := Some "QUJD" |};
     Sdk.text := None |}.

(** A response part carrying a JPEG image. *)
Definition jpeg_image : Sdk.Part :=
  {| Sdk.inlineData := Some {| Sdk.mimeType := Some "image/jpeg";
                               Sdk.data := Some "REVG" |};
     Sdk.text := None |}.

Definition explanation : Sdk.Part :=
  {| Sdk.inlineData := None; Sdk.text := Some "I cannot edit this image." |}.

Definition response_of (parts : list Sdk.Part) : Sdk.GenerateContentResponse :=
  {| Sdk.candidates :=
       Some [ {| Sdk.content :=
                   Some {| Sdk.content_parts := Some parts |} |} ] |}.

(** A model that answers every request with the given parts. *)
Definition answering (parts : list Sdk.Part) : Sdk.GenerateContent :=
  fun _ => Fulfilled (response_of parts).

(** A model whose call always fails with the given message. *)
Definition failing (msg : string) : Sdk.GenerateContent :=
  fun _ => Rejected {| message := msg |}.

(** An editor holding one uploaded image and the default prompt. *)
Definition one_upload (f : Editor.File) : Editor.EditorState :=
  Editor.processFiles browser 0 [f] Editor.initial.

(** An editor holding one uploaded image and a prompt of a space and a
    tab. *)
Definition blank_prompt : Editor.EditorState :=
  {| Editor.uploadedImages := Editor.uploadedImages (one_upload png_file);
     Editor.resultUrl := None;
     Editor.prompt := String " " (String (ascii_of_nat 9) EmptyString);
     Editor.appState := IDLE;
     Editor.errorMessage := EmptyString |}.

End Sample.

(** ** Facts kept by every event *)

Module Reach.

(** A request as a generate action is meant to send it: a text part with
    a prompt that is not blank, then at least one inline part, each with
    a content type starting with [image/]. *)
Definition well_formed_request (request : Sdk.GenerateContentParameters)
  : Prop :=
  exists prompt inline,
    Sdk.parts (Sdk.contents request) = Sdk.TextPart prompt :: inline /\
    ~ blank prompt /\
    inline <> [] /\
    Forall (fun part =>
              exists mime data,
                part = Sdk.InlineDataPart mime data /\
                JS.startsWith mime "image/" = true)
           inline.

(** A render from which a generate action may have started. *)
Definition submittable (render : Editor.EditorState) : Prop :=
  Editor.submission_blocked render = false /\
  Forall Ui.from_image_file (Editor.uploadedImages render).

Record invariant (s : Ui.Session) : Prop := {
  inv_uploads :
    Forall Ui.from_image_file (Editor.uploadedImages (Ui.editor s));
  inv_result :
    forall url,
      Editor.resultUrl (Ui.editor s) = Some url ->
      JS.startsWith url "data:" = true;
  inv_success :
    Editor.appState (Ui.editor s) = SUCCESS ->
    Editor.resultUrl (Ui.editor s) <> None;
  inv_error :
    Editor.appState (Ui.editor s) = ERROR ->
    Editor.errorMessage (Ui.editor s) <> EmptyString;
  inv_processing :
    Editor.appState (Ui.editor s) = PROCESSING -> Ui.outstanding s <> [];
  inv_outstanding : Forall submittable (Ui.outstanding s)
}.

End Reach.

(** ** Further concrete inputs *)

Module Scenario.

Definition jpeg_file : Editor.File :=
  {| Editor.name := "cat.jpg"; Editor.type := "image/jpeg";
     Editor.base64 := "/9j/4AAQ"; Editor.readable := true |}.

(** A file the reader fails on. *)
Definition broken_file : Editor.File :=
  {| Editor.name := "broken.png"; Editor.type := "image/png";
     Editor.base64 := EmptyString; Editor.readable := false |}.

(** A clock and a random source that answer differently each time. *)
Definition browser : Editor.Browser :=
  {| Editor.Date_now := fun i => String (ascii_of_nat (48 + i)) EmptyString;
     Editor.Math_random := fun _ => "0.25";
     Editor.createObjectURL :=
       fun i f => ("blob:" ++ String (ascii_of_nat (48 + i)) EmptyString
                           ++ "/" ++ Editor.name f)%string |}.

Definition uploads (files : list Editor.File) : Editor.EditorState :=
  Editor.processFiles browser 0 files Editor.initial.

(** Two uploads, a result on display and the status SUCCESS. *)
Definition with_result : Editor.EditorState :=
  Editor.setAppState SUCCESS
    (Editor.setResultUrl (Some "data:image/png;base64,QUJD")
       (uploads [Sample.png_file; jpeg_file])).

(** A response whose only candidate has no content, as when the model
    withholds its answer. *)
Definition withheld : Sdk.GenerateContentResponse :=
  {| Sdk.candidates := Some [ {| Sdk.content := None |} ] |}.

(** A response whose only candidate has a content without parts. *)
Definition partless : Sdk.GenerateContentResponse :=
  {| Sdk.candidates :=
       Some [ {| Sdk.content := Some {| Sdk.content_parts := None |} |} ] |}.

(** A model whose call rejects with [null] or [undefined]. *)
Definition throwing (v : Nullish) : Sdk.GenerateContent :=
  fun _ => Rejected (ThrownNullish v).

(** A user drops a PNG and presses Generate. *)
Definition generating : list Ui.Event :=
  [Ui.Drop (Some [Sample.png_file]); Ui.Generate].

(** The same, and then the call settles. *)
Definition settled : list Ui.Event :=
  [Ui.Drop (Some [Sample.png_file]); Ui.Generate; Ui.Settle 0].

End Scenario.

(** * Properties *)

(** ** Truthiness and the [||] default *)

Lemma truthy_nonempty (s : string) :
  JS.truthy s = true <-> s <> EmptyString.
Proof.
  destruct s; simpl; split; intro H; try congruence; try discriminate.
Qed.

Lemma truthy_empty (s : string) :
  JS.truthy s = false <-> s = EmptyString.
Proof.
  destruct s; simpl; split; intro H; try congruence; try discriminate.
Qed.

Lemma or_else_nonempty (o : option string) (d : string) :
  d <> EmptyString -> JS.or_else o d <> EmptyString.
Proof.
  intros Hd. destruct o as [s|]; simpl; [|exact Hd].
  destruct s; simpl; [exact Hd | discriminate].
Qed.

Lemma or_else_some (s d : string) :
  s <> EmptyString -> JS.or_else (Some s) d = s.
Proof.
  intros Hs. simpl. destruct s; [congruence | reflexivity].
Qed.

Lemma or_else_falsy (o : option string) (d : string) :
  JS.truthy_opt o = false -> JS.or_else o d = d.
Proof.
  destruct o as [s|]; simpl; [|reflexivity].
  intros ->. reflexivity.
Qed.

(** ** First matching element of an array *)

Lemma find_first_such {A} (P : A -> bool) (l : list A) (x : A) :
  first_such P l x -> find P l = Some x.
Proof.
  intros (before & after & -> & Hbefore & Hx).
  induction Hbefore as [|y before Hy _ IH]; simpl.
  - now rewrite Hx.
  - now rewrite Hy.
Qed.

Lemma find_none_such {A} (P : A -> bool) (l : list A) :
  none_such P l -> find P l = None.
Proof.
  unfold none_such. induction 1 as [|y l Hy _ IH]; simpl.
  - reflexivity.
  - now rewrite Hy.
Qed.

Lemma first_or_none {A} (P : A -> bool) (l : list A) :
  (exists x, first_such P l x) \/ none_such P l.
Proof.
  induction l as [|y l IH].
  - right. constructor.
  - destruct (P y) eqn:Hy.
    + left. exists y, [], l. repeat split; [constructor | exact Hy].
    + destruct IH as [(x & before & after & -> & Hb & Hx) | Hnone].
      * left. exists x, (y :: before), after.
        repeat split; [constructor; assumption | exact Hx].
      * right. constructor; assumption.
Qed.

Lemma first_none_exclusive {A} (P : A -> bool) (l : list A) (x : A) :
  first_such P l x -> none_such P l -> False.
Proof.
  intros Hfirst Hnone.
  pose proof (find_first_such P l x Hfirst) as H.
  rewrite (find_none_such P l Hnone) in H. discriminate.
Qed.

(** ** The image search loop *)

Lemma data_uri_nonempty (blob : Sdk.Blob) :
  Service.data_uri blob <> EmptyString.
Proof. unfold Service.data_uri. simpl. discriminate. Qed.

Lemma find_generated_image_first (parts : list Sdk.Part) (part : Sdk.Part) :
  first_such Service.has_inline_data parts part ->
  exists blob d,
    Sdk.inlineData part = Some blob /\
    Sdk.data blob = Some d /\
    d <> EmptyString /\
    Service.find_generated_image parts
    = Some ("data:" ++ JS.or_else (Sdk.mimeType blob) "image/png"
                    ++ ";base64," ++ d)%string.
Proof.
  intros (before & after & -> & Hbefore & Hpart).
  induction Hbefore as [|y before Hy _ IH].
  - unfold Service.has_inline_data in Hpart. simpl.
    destruct (Sdk.inlineData part) as [blob|] eqn:Hblob; [|discriminate].
    rewrite Hpart. exists blob.
    destruct (Sdk.data blob) as [d|] eqn:Hd; [|discriminate].
    exists d. repeat split; try reflexivity.
    + now apply truthy_nonempty.
    + unfold Service.data_uri. now rewrite Hd.
  - destruct IH as (blob & d & H1 & H2 & H3 & H4).
    exists blob, d. repeat split; try assumption.
    simpl. unfold Service.has_inline_data in Hy.
    destruct (Sdk.inlineData y) as [b|]; [rewrite Hy|]; exact H4.
Qed.

Lemma find_generated_image_none (parts : list Sdk.Part) :
  none_such Service.has_inline_data parts ->
  Service.find_generated_image parts = None.
Proof.
  unfold none_such. induction 1 as [|y l Hy _ IH]; simpl.
  - reflexivity.
  - unfold Service.has_inline_data in Hy.
    destruct (Sdk.inlineData y) as [b|]; [rewrite Hy|]; exact IH.
Qed.

Lemma find_generated_image_nonempty (parts : list Sdk.Part) (s : string) :
  Service.find_generated_image parts = Some s -> s <> EmptyString.
Proof.
  induction parts as [|part rest IH]; simpl; [discriminate|].
  destruct (Sdk.inlineData part) as [blob|]; [|exact IH].
  destruct (JS.truthy_opt (Sdk.data blob)); [|exact IH].
  intros [= <-]. apply data_uri_nonempty.
Qed.

(** ** The service function, case by case *)

Lemma editImageWithGemini_no_images
      (generateContent : Sdk.GenerateContent) (prompt : string) :
  Service.editImageWithGemini generateContent [] prompt
  = ([], Fulfilled {| success := false; image := None;
                      error := Some Service.no_image_data_message |}).
Proof. reflexivity. Qed.

Lemma editImageWithGemini_fulfilled
      (generateContent : Sdk.GenerateContent)
      (imageData : list Service.ImageData) (prompt : string)
      (response : Sdk.GenerateContentResponse) :
  imageData <> [] ->
  generateContent (Service.build_request imageData prompt)
  = Fulfilled response ->
  Service.editImageWithGemini generateContent imageData prompt
  = try_catch
      (bind ([Service.build_request imageData prompt], Fulfilled response)
            Service.parse_response)
      Service.catch_block.
Proof.
  intros Hne Hcall. unfold Service.editImageWithGemini.
  destruct imageData as [|img rest]; [congruence|].
  cbn [List.length Nat.eqb]. unfold await_call. now rewrite Hcall.
Qed.

Lemma editImageWithGemini_parsed
      (generateContent : Sdk.GenerateContent)
      (imageData : list Service.ImageData) (prompt : string)
      (response : Sdk.GenerateContentResponse) (r : EditResponse) :
  imageData <> [] ->
  generateContent (Service.build_request imageData prompt)
  = Fulfilled response ->
  Service.parse_response response = ret r ->
  Service.editImageWithGemini generateContent imageData prompt
  = ([Service.build_request imageData prompt], Fulfilled r).
Proof.
  intros Hne Hcall Hparse.
  rewrite (editImageWithGemini_fulfilled _ _ _ _ Hne Hcall).
  unfold bind. now rewrite Hparse.
Qed.

Lemma editImageWithGemini_parse_throws
      (generateContent : Sdk.GenerateContent)
      (imageData : list Service.ImageData) (prompt : string)
      (response : Sdk.GenerateContentResponse) (e : JsError) :
  imageData <> [] ->
  generateContent (Service.build_request imageData prompt)
  = Fulfilled response ->
  Service.parse_response response = throw e ->
  Service.editImageWithGemini generateContent imageData prompt
  = ([Service.build_request imageData prompt],
     Fulfilled {| success := false; image := None;
                  error := Some (JS.or_else (Some (message e))
                                   Service.unexpected_error_message) |}).
Proof.
  intros Hne Hcall Hparse.
  rewrite (editImageWithGemini_fulfilled _ _ _ _ Hne Hcall).
  unfold bind. now rewrite Hparse.
Qed.

Lemma editImageWithGemini_rejected
      (generateContent : Sdk.GenerateContent)
      (imageData : list Service.ImageData) (prompt : string)
      (e : JsError) :
  imageData <> [] ->
  generateContent (Service.build_request imageData prompt) = Rejected e ->
  Service.editImageWithGemini generateContent imageData prompt
  = ([Service.build_request imageData prompt],
     Fulfilled {| success := false; image := None;
                  error := Some (JS.or_else (Some (message e))
                                   Service.unexpected_error_message) |}).
Proof.
  intros Hne Hcall. unfold Service.editImageWithGemini.
  destruct imageData as [|img rest]; [congruence|].
  cbn [List.length Nat.eqb]. unfold await_call, bind, try_catch, ret.
  rewrite Hcall. reflexivity.
Qed.

Lemma editImageWithGemini_rejected_nullish
      (generateContent : Sdk.GenerateContent)
      (imageData : list Service.ImageData) (prompt : string)
      (v : Nullish) :
  imageData <> [] ->
  generateContent (Service.build_request imageData prompt)
  = Rejected (ThrownNullish v) ->
  Service.editImageWithGemini generateContent imageData prompt
  = ([Service.build_request imageData prompt],
     Rejected (Engine.cannot_read v "message")).
Proof.
  intros Hne Hcall. unfold Service.editImageWithGemini.
  destruct imageData as [|img rest]; [congruence|].
  cbn [List.length Nat.eqb]. unfold await_call, bind, try_catch.
  rewrite Hcall. reflexivity.
Qed.

Lemma parse_response_parts
      (response : Sdk.GenerateContentResponse)
      (candidate : Sdk.Candidate) (others : list Sdk.Candidate)
      (content : Sdk.Content) (parts : list Sdk.Part) :
  Sdk.candidates response = Some (candidate :: others) ->
  Sdk.content candidate = Some content ->
  Sdk.content_parts content = Some parts ->
  Service.parse_response response = ret (Service.parse_parts parts).
Proof.
  intros Hc Hcontent Hparts. unfold Service.parse_response.
  now rewrite Hc, Hcontent, Hparts.
Qed.

Lemma parse_parts_image (parts : list Sdk.Part) (img : string) :
  Service.find_generated_image parts = Some img ->
  Service.parse_parts parts
  = {| success := true; image := Some img; error := None |}.
Proof.
  intros Himg. unfold Service.parse_parts. rewrite Himg.
  apply find_generated_image_nonempty, truthy_nonempty in Himg.
  simpl. now rewrite Himg.
Qed.

Lemma parse_parts_no_image (parts : list Sdk.Part) :
  Service.find_generated_image parts = None ->
  Service.parse_parts parts
  = {| success := false; image := None;
       error :=
         Some (JS.or_else
                 match Service.find_text_part parts with
                 | Some p => Sdk.text p
                 | None => None
                 end
                 Service.no_image_returned_message) |}.
Proof.
  intros Himg. unfold Service.parse_parts. now rewrite Himg.
Qed.

Lemma no_image_returned_message_nonempty :
  Service.no_image_returned_message <> EmptyString.
Proof. discriminate. Qed.

Lemma parse_parts_shape (parts : list Sdk.Part) :
  response_shape (Service.parse_parts parts).
Proof.
  destruct (Service.find_generated_image parts) as [img|] eqn:Himg.
  - rewrite (parse_parts_image _ _ Himg).
    constructor. now apply find_generated_image_nonempty in Himg.
  - rewrite (parse_parts_no_image _ Himg).
    constructor. apply or_else_nonempty, no_image_returned_message_nonempty.
Qed.

(** What is left of a response: a result, or a [TypeError]. *)
Lemma parse_response_cases (response : Sdk.GenerateContentResponse) :
  (exists r, Service.parse_response response = ret r /\ response_shape r) \/
  (exists e : JsError, Service.parse_response response = throw e).
Proof.
  unfold Service.parse_response.
  destruct (Sdk.candidates response) as [[|candidate others]|].
  - left. eexists. split; [reflexivity|]. constructor. discriminate.
  - destruct (Sdk.content candidate) as [content|].
    + destruct (Sdk.content_parts content) as [parts|].
      * left. eexists. split; [reflexivity|]. apply parse_parts_shape.
      * right. eexists. reflexivity.
    + right. eexists. reflexivity.
  - left. eexists. split; [reflexivity|]. constructor. discriminate.
Qed.

(** The service fulfils with one of the two shapes of result, unless the
    call rejected with [null] or [undefined]; then it rejects. *)
Lemma editImageWithGemini_shape
      (generateContent : Sdk.GenerateContent)
      (imageData : list Service.ImageData) (prompt : string) :
  (exists r,
      outcome (Service.editImageWithGemini generateContent imageData prompt)
      = Fulfilled r /\
      response_shape r) \/
  (imageData <> [] /\
   exists v,
     generateContent (Service.build_request imageData prompt)
     = Rejected (ThrownNullish v) /\
     outcome (Service.editImageWithGemini generateContent imageData prompt)
     = Rejected (Engine.cannot_read v "message")).
Proof.
  destruct imageData as [|img rest].
  - left. rewrite editImageWithGemini_no_images.
    eexists. split; [reflexivity|]. constructor. discriminate.
  - assert (Hne : img :: rest <> []) by discriminate.
    destruct (generateContent (Service.build_request (img :: rest) prompt))
      as [response|[e|v]] eqn:Hcall.
    + left.
      destruct (parse_response_cases response)
        as [(r & Hparse & Hshape) | (e & Hparse)].
      * rewrite (editImageWithGemini_parsed _ _ _ _ _ Hne Hcall Hparse).
        exists r. split; [reflexivity | exact Hshape].
      * rewrite (editImageWithGemini_parse_throws _ _ _ _ _ Hne Hcall Hparse).
        eexists. split; [reflexivity|].
        constructor. apply or_else_nonempty. discriminate.
    + left. rewrite (editImageWithGemini_rejected _ _ _ _ Hne Hcall).
      eexists. split; [reflexivity|].
      constructor. apply or_else_nonempty. discriminate.
    + right. split; [exact Hne|]. exists v. split; [reflexivity|].
      now rewrite (editImageWithGemini_rejected_nullish _ _ _ _ Hne Hcall).
Qed.

Lemma editImageWithGemini_fulfilled_shape
      (generateContent : Sdk.GenerateContent)
      (imageData : list Service.ImageData) (prompt : string)
      (r : EditResponse) :
  outcome (Service.editImageWithGemini generateContent imageData prompt)
  = Fulfilled r ->
  response_shape r.
Proof.
  intros Hr.
  destruct (editImageWithGemini_shape generateContent imageData prompt)
    as [(r' & Hr' & Hshape) | (_ & v & _ & Hrej)]; congruence.
Qed.

(** ** Response parsing *)

(** C1, at a response whose first candidate has no content (or a content
    without parts).  The candidate list is not empty and there is no
    inline image and no text part, yet the error returned is not the
    fixed default message: reading [content.parts] throws, and the error
    is the text of that [TypeError]. *)
Theorem withheld_answer_reports_type_error
        (img : Service.ImageData) (rest : list Service.ImageData)
        (prompt : string) (others : list Sdk.Candidate) :
  outcome
    (Service.editImageWithGemini
       (fun _ =>
          Fulfilled
            {| Sdk.candidates :=
                 Some ({| Sdk.content := None |} :: others) |})
       (img :: rest) prompt)
  = Fulfilled
      {| success := false; image := None;
         error :=
           Some "Cannot read properties of undefined (reading 'parts')" |} /\
  outcome
    (Service.editImageWithGemini
       (fun _ =>
          Fulfilled
            {| Sdk.candidates :=
                 Some ({| Sdk.content :=
                            Some {| Sdk.content_parts := None |} |}
                         :: others) |})
       (img :: rest) prompt)
  = Fulfilled
      {| success := false; image := None;
         error := Some "parts is not iterable" |} /\
  "Cannot read properties of undefined (reading 'parts')"
  <> Service.no_image_returned_message /\
  "parts is not iterable" <> Service.no_image_returned_message.
Proof.
  split; [reflexivity|]. split; [reflexivity|]. split; discriminate.
Qed.

(** X22. When the first candidate of the response has a content with
    parts, the service looks through them.  If some part has inline data (a
    present, non-empty [inlineData.data], which is what the service
    tests), the result is a success whose image is the data of the first
    such part formatted as a data URI.  If no part has inline data, the
    result is a failure whose error is the text of the first part that
    has text (present and non-empty), or the fixed default message when
    no part has text. *)
Theorem editImageWithGemini_locates_image
        (generateContent : Sdk.GenerateContent)
        (imageData : list Service.ImageData) (prompt : string)
        (response : Sdk.GenerateContentResponse)
        (candidate : Sdk.Candidate) (others : list Sdk.Candidate)
        (content : Sdk.Content) (parts : list Sdk.Part) :
  imageData <> [] ->
  generateContent (Service.build_request imageData prompt)
  = Fulfilled response ->
  Sdk.candidates response = Some (candidate :: others) ->
  Sdk.content candidate = Some content ->
  Sdk.content_parts content = Some parts ->
  exists r,
    outcome (Service.editImageWithGemini generateContent imageData prompt)
    = Fulfilled r /\
    (forall part,
        first_such Service.has_inline_data parts part ->
        exists blob d,
          Sdk.inlineData part = Some blob /\
          Sdk.data blob = Some d /\
          r = {| success := true;
                 image := Some ("data:"
                                  ++ JS.or_else (Sdk.mimeType blob) "image/png"
                                  ++ ";base64," ++ d)%string;
                 error := None |}) /\
    (none_such Service.has_inline_data parts ->
     (forall p,
         first_such Service.has_text parts p ->
         exists t,
           Sdk.text p = Some t /\
           r = {| success := false; image := None; error := Some t |}) /\
     (none_such Service.has_text parts ->
      r = {| success := false; image := None;
             error := Some Service.no_image_returned_message |})).
Proof.
  intros Hne Hcall Hcand Hcontent Hparts.
  rewrite (editImageWithGemini_parsed
             _ _ _ _ _ Hne Hcall
             (parse_response_parts _ _ _ _ _ Hcand Hcontent Hparts)).
  eexists. split; [reflexivity|]. split.
  - intros part Hfirst.
    destruct (find_generated_image_first _ _ Hfirst)
      as (blob & d & Hblob & Hd & _ & Hfound).
    exists blob, d. repeat split; try assumption.
    exact (parse_parts_image _ _ Hfound).
  - intros Hnone.
    rewrite (parse_parts_no_image _ (find_generated_image_none _ Hnone)).
    unfold Service.find_text_part. split.
    + intros p Hp. rewrite (find_first_such _ _ _ Hp).
      destruct Hp as (_ & _ & _ & _ & Htext).
      unfold Service.has_text in Htext.
      destruct (Sdk.text p) as [t|]; [|discriminate].
      exists t. split; [reflexivity|].
      rewrite or_else_some; [reflexivity|].
      now apply truthy_nonempty.
    + intros Hnotext. now rewrite (find_none_such _ _ Hnotext).
Qed.

Lemma editImageWithGemini_locates_image_witness :
  Sample.imageData <> [] /\
  Sample.answering [Sample.explanation; Sample.untyped_image; Sample.jpeg_image]
                   (Service.build_request Sample.imageData Sample.prompt)
  = Fulfilled (Sample.response_of
                 [Sample.explanation; Sample.untyped_image;
                  Sample.jpeg_image]) /\
  outcome (Service.editImageWithGemini
             (Sample.answering [Sample.explanation; Sample.untyped_image;
                                Sample.jpeg_image])
             Sample.imageData Sample.prompt)
  = Fulfilled {| success := true;
                 image := Some "data:image/png;base64,QUJD";
                 error := None |}.
Proof.
  assert (Hne : Sample.imageData <> []) by discriminate.
  split; [exact Hne|]. split; [reflexivity|].
  destruct (editImageWithGemini_locates_image
              (Sample.answering [Sample.explanation; Sample.untyped_image;
                                 Sample.jpeg_image])
              Sample.imageData Sample.prompt _ _ _ _ _
              Hne eq_refl eq_refl eq_refl eq_refl)
    as (r & Hr & Himage & _).
  rewrite Hr. f_equal.
  destruct (Himage Sample.untyped_image) as (blob & d & Hblob & Hd & ->).
  - exists [Sample.explanation], [Sample.jpeg_image].
    repeat split. constructor; [reflexivity | constructor].
  - injection Hblob as <-. injection Hd as <-. reflexivity.
Defined.

(** C9. When the first part with inline data has no content type of its
    own ([mimeType] is absent or empty, the two cases the [||] treats
    alike), the image returned is a data URI of type [image/png];
    otherwise the data URI carries the part's own [mimeType]. *)
Theorem returned_mime_defaults_to_png
        (generateContent : Sdk.GenerateContent)
        (imageData : list Service.ImageData) (prompt : string)
        (response : Sdk.GenerateContentResponse)
        (candidate : Sdk.Candidate) (others : list Sdk.Candidate)
        (content : Sdk.Content) (parts : list Sdk.Part)
        (part : Sdk.Part) (blob : Sdk.Blob) (d : string) :
  imageData <> [] ->
  generateContent (Service.build_request imageData prompt)
  = Fulfilled response ->
  Sdk.candidates response = Some (candidate :: others) ->
  Sdk.content candidate = Some content ->
  Sdk.content_parts content = Some parts ->
  first_such Service.has_inline_data parts part ->
  Sdk.inlineData part = Some blob ->
  Sdk.data blob = Some d ->
  exists r,
    outcome (Service.editImageWithGemini generateContent imageData prompt)
    = Fulfilled r /\
    success r = true /\
    (JS.truthy_opt (Sdk.mimeType blob) = false ->
     image r = Some ("data:image/png;base64," ++ d)%string) /\
    (forall m,
        Sdk.mimeType blob = Some m -> m <> EmptyString ->
        image r = Some ("data:" ++ m ++ ";base64," ++ d)%string).
Proof.
  intros Hne Hcall Hcand Hcontent Hparts Hfirst Hblob Hd.
  rewrite (editImageWithGemini_parsed
             _ _ _ _ _ Hne Hcall
             (parse_response_parts _ _ _ _ _ Hcand Hcontent Hparts)).
  destruct (find_generated_image_first _ _ Hfirst)
    as (blob' & d' & Hblob' & Hd' & _ & Hfound).
  assert (blob' = blob) as -> by congruence.
  assert (d' = d) as -> by congruence.
  rewrite (parse_parts_image _ _ Hfound).
  eexists. split; [reflexivity|]. simpl. split; [reflexivity|]. split.
  - intros Hfalsy. now rewrite (or_else_falsy _ _ Hfalsy).
  - intros m Hm Hmne. rewrite Hm, (or_else_some _ _ Hmne). reflexivity.
Qed.

Lemma returned_mime_defaults_to_png_witness :
  (exists r,
      outcome (Service.editImageWithGemini
                 (Sample.answering [Sample.explanation; Sample.untyped_image])
                 Sample.imageData Sample.prompt)
      = Fulfilled r /\
      image r = Some "data:image/png;base64,QUJD") /\
  (exists r,
      outcome (Service.editImageWithGemini
                 (Sample.answering [Sample.jpeg_image; Sample.untyped_image])
                 Sample.imageData Sample.prompt)
      = Fulfilled r /\
      image r = Some "data:image/jpeg;base64,REVG").
Proof.
  assert (Hne : Sample.imageData <> []) by discriminate.
  assert (Hpng_first :
            first_such Service.has_inline_data
                       [Sample.explanation; Sample.untyped_image]
                       Sample.untyped_image).
  { exists [Sample.explanation], [].
    repeat split. constructor; [reflexivity | constructor]. }
  assert (Hjpeg_first :
            first_such Service.has_inline_data
                       [Sample.jpeg_image; Sample.untyped_image]
                       Sample.jpeg_image).
  { exists [], [Sample.untyped_image]. repeat split. constructor. }
  split.
  - destruct (returned_mime_defaults_to_png
                (Sample.answering [Sample.explanation; Sample.untyped_image])
                Sample.imageData Sample.prompt _ _ _ _ _
                Sample.untyped_image _ "QUJD"
                Hne eq_refl eq_refl eq_refl eq_refl
                Hpng_first eq_refl eq_refl)
      as (r & Hr & _ & Hpng & _).
    exists r. split; [exact Hr | exact (Hpng eq_refl)].
  - destruct (returned_mime_defaults_to_png
                (Sample.answering [Sample.jpeg_image; Sample.untyped_image])
                Sample.imageData Sample.prompt _ _ _ _ _
                Sample.jpeg_image _ "REVG"
                Hne eq_refl eq_refl eq_refl eq_refl
                Hjpeg_first eq_refl eq_refl)
      as (r & Hr & _ & _ & Hown).
    exists r. split; [exact Hr|].
    apply (Hown "image/jpeg" eq_refl). discriminate.
Defined.

(** ** Failures *)

(** C2, at a call that rejects with [null] or [undefined].  The [catch]
    block reads [error.message], which throws, so the promise returned
    by the service rejects instead of fulfilling with a failure. *)
Theorem nullish_rejection_escapes_catch
        (v : Nullish) (img : Service.ImageData)
        (rest : list Service.ImageData) (prompt : string) :
  outcome (Service.editImageWithGemini
             (fun _ => Rejected (ThrownNullish v)) (img :: rest) prompt)
  = Rejected
      {| message :=
           match v with
           | JsNull => "Cannot read properties of null (reading 'message')"
           | JsUndefined =>
               "Cannot read properties of undefined (reading 'message')"
           end |} /\
  forall r,
    outcome (Service.editImageWithGemini
               (fun _ => Rejected (ThrownNullish v)) (img :: rest) prompt)
    <> Fulfilled r.
Proof.
  assert (Hne : img :: rest <> []) by discriminate.
  rewrite (editImageWithGemini_rejected_nullish
             (fun _ => Rejected (ThrownNullish v)) _ prompt v Hne eq_refl).
  split; [destruct v; reflexivity | discriminate].
Qed.

(** X23. Unless the call rejects with [null] or [undefined], the promise
    returned by the service fulfils with an [EditResponse].  A response
    with [success] false is exactly [{ success: false, error: s }] with
    [s] a non-empty string, and each failure of the external call gives
    such a response: a call that throws an error, a candidate list that
    is missing or empty, and a first candidate that has no content, no
    parts, or no part with inline data. *)
Theorem editImageWithGemini_fulfils_unless_nullish
        (generateContent : Sdk.GenerateContent)
        (imageData : list Service.ImageData) (prompt : string) :
  (forall v,
      generateContent (Service.build_request imageData prompt)
      <> Rejected (ThrownNullish v)) ->
  exists r,
    outcome (Service.editImageWithGemini generateContent imageData prompt)
    = Fulfilled r /\
    (success r = false ->
     exists s,
       r = {| success := false; image := None; error := Some s |} /\
       s <> EmptyString) /\
    (imageData = [] -> success r = false) /\
    (forall e : JsError,
        imageData <> [] ->
        generateContent (Service.build_request imageData prompt)
        = Rejected e ->
        success r = false) /\
    (forall response,
        imageData <> [] ->
        generateContent (Service.build_request imageData prompt)
        = Fulfilled response ->
        (Sdk.candidates response = None \/
         Sdk.candidates response = Some [] \/
         exists candidate others,
           Sdk.candidates response = Some (candidate :: others) /\
           (Sdk.content candidate = None \/
            exists content,
              Sdk.content candidate = Some content /\
              (Sdk.content_parts content = None \/
               exists parts,
                 Sdk.content_parts content = Some parts /\
                 none_such Service.has_inline_data parts))) ->
        success r = false).
Proof.
  intros Hobject.
  destruct (editImageWithGemini_shape generateContent imageData prompt)
    as [(r & Hr & Hshape) | (_ & v & Hcall & _)];
    [|now apply Hobject in Hcall].
  exists r. split; [exact Hr|]. split; [|split; [|split]].
  - intros Hfail. destruct Hshape as [img Himg | msg Hmsg]; [discriminate|].
    exists msg. split; [reflexivity | exact Hmsg].
  - intros ->. rewrite editImageWithGemini_no_images in Hr.
    injection Hr as <-. reflexivity.
  - intros e Hne Hcall.
    rewrite (editImageWithGemini_rejected _ _ _ _ Hne Hcall) in Hr.
    injection Hr as <-. reflexivity.
  - intros response Hne Hcall Hcases.
    destruct Hcases
      as [Hc | [Hc | (candidate & others & Hc
                      & [Hcontent | (content & Hcontent
                                     & [Hparts | (parts & Hparts & Hnone)])])]].
    + rewrite (editImageWithGemini_parsed
                 _ _ _ _ {| success := false; image := None;
                            error := Some Service.no_candidates_message |}
                 Hne Hcall) in Hr.
      * injection Hr as <-. reflexivity.
      * unfold Service.parse_response. now rewrite Hc.
    + rewrite (editImageWithGemini_parsed
                 _ _ _ _ {| success := false; image := None;
                            error := Some Service.no_candidates_message |}
                 Hne Hcall) in Hr.
      * injection Hr as <-. reflexivity.
      * unfold Service.parse_response. now rewrite Hc.
    + rewrite (editImageWithGemini_parse_throws
                 _ _ _ _ (Engine.cannot_read JsUndefined "parts")
                 Hne Hcall) in Hr.
      * injection Hr as <-. reflexivity.
      * unfold Service.parse_response. now rewrite Hc, Hcontent.
    + rewrite (editImageWithGemini_parse_throws
                 _ _ _ _ (Engine.not_iterable "parts") Hne Hcall) in Hr.
      * injection Hr as <-. reflexivity.
      * unfold Service.parse_response. now rewrite Hc, Hcontent, Hparts.
    + rewrite (editImageWithGemini_parsed
                 _ _ _ _ _ Hne Hcall
                 (parse_response_parts _ _ _ _ _ Hc Hcontent Hparts)) in Hr.
      injection Hr as <-.
      now rewrite (parse_parts_no_image
                     _ (find_generated_image_none _ Hnone)).
Qed.

Lemma editImageWithGemini_fulfils_unless_nullish_witness :
  (forall v,
      (fun _ : Sdk.GenerateContentParameters =>
         Fulfilled Scenario.withheld)
        (Service.build_request Sample.imageData Sample.prompt)
      <> Rejected (ThrownNullish v)) /\
  exists r,
    outcome (Service.editImageWithGemini
               (fun _ => Fulfilled Scenario.withheld)
               Sample.imageData Sample.prompt)
    = Fulfilled r /\
    success r = false.
Proof.
  assert (Hobject :
            forall v,
              (fun _ : Sdk.GenerateContentParameters =>
                 Fulfilled Scenario.withheld)
                (Service.build_request Sample.imageData Sample.prompt)
              <> Rejected (ThrownNullish v)) by discriminate.
  split; [exact Hobject|].
  destruct (editImageWithGemini_fulfils_unless_nullish
              (fun _ => Fulfilled Scenario.withheld)
              Sample.imageData Sample.prompt Hobject)
    as (r & Hr & _ & _ & _ & Hresponse).
  exists r. split; [exact Hr|].
  apply (Hresponse Scenario.withheld); [discriminate | reflexivity|].
  right. right. eexists _, _. split; [reflexivity|]. now left.
Defined.

(** X24. The promise returned by the service rejects exactly when it was
    given image data and the call rejected with [null] or [undefined]. *)
Theorem editImageWithGemini_rejects_iff
        (generateContent : Sdk.GenerateContent)
        (imageData : list Service.ImageData) (prompt : string) :
  (exists reason,
      outcome (Service.editImageWithGemini generateContent imageData prompt)
      = Rejected reason)
  <-> imageData <> [] /\
      exists v,
        generateContent (Service.build_request imageData prompt)
        = Rejected (ThrownNullish v).
Proof.
  split.
  - intros (reason & Hrej).
    destruct (editImageWithGemini_shape generateContent imageData prompt)
      as [(r & Hr & _) | (Hne & v & Hcall & _)]; [congruence|].
    split; [exact Hne|]. now exists v.
  - intros (Hne & v & Hcall).
    rewrite (editImageWithGemini_rejected_nullish _ _ _ _ Hne Hcall).
    eexists. reflexivity.
Qed.

(** ** The shape of the result *)

(** C8. Every [EditResponse] the service returns has [image] defined and
    [error] absent when [success] is true, and [error] defined and [image]
    absent when [success] is false; so [success] is true exactly when an
    image is returned.  (And it does return one unless the call rejected
    with [null] or [undefined].) *)
Theorem edit_response_image_iff_success
        (generateContent : Sdk.GenerateContent)
        (imageData : list Service.ImageData) (prompt : string) :
  (forall r,
      outcome (Service.editImageWithGemini generateContent imageData prompt)
      = Fulfilled r ->
      (success r = true ->
       (exists img, image r = Some img) /\ error r = None) /\
      (success r = false ->
       (exists msg, error r = Some msg) /\ image r = None) /\
      (success r = true <-> image r <> None)) /\
  ((forall v,
       generateContent (Service.build_request imageData prompt)
       <> Rejected (ThrownNullish v)) ->
   exists r,
     outcome (Service.editImageWithGemini generateContent imageData prompt)
     = Fulfilled r).
Proof.
  split.
  - intros r Hr.
    destruct (editImageWithGemini_fulfilled_shape _ _ _ _ Hr)
      as [img Himg | msg Hmsg]; simpl.
    + repeat split; try discriminate; eauto.
    + repeat split; try discriminate; try congruence; eauto.
  - intros Hobject.
    destruct (editImageWithGemini_shape generateContent imageData prompt)
      as [(r & Hr & _) | (_ & v & Hcall & _)].
    + now exists r.
    + now apply Hobject in Hcall.
Qed.

Lemma edit_response_image_iff_success_witness :
  outcome (Service.editImageWithGemini
             (Sample.answering [Sample.explanation; Sample.jpeg_image])
             Sample.imageData Sample.prompt)
  = Fulfilled {| success := true;
                 image := Some "data:image/jpeg;base64,REVG";
                 error := None |} /\
  error {| success := true;
           image := Some "data:image/jpeg;base64,REVG";
           error := None |} = None.
Proof.
  split; [reflexivity|].
  destruct (edit_response_image_iff_success
              (Sample.answering [Sample.explanation; Sample.jpeg_image])
              Sample.imageData Sample.prompt) as (Hshape & _).
  destruct (Hshape _ eq_refl) as (Hsuccess & _ & _).
  exact (proj2 (Hsuccess eq_refl)).
Defined.

Example call_fails_with_message :
  Service.editImageWithGemini (Sample.failing "fetch failed")
                              Sample.imageData Sample.prompt
  = ([Service.build_request Sample.imageData Sample.prompt],
     Fulfilled {| success := false; image := None;
                  error := Some "fetch failed" |}).
Proof. reflexivity. Qed.

Example call_fails_without_message :
  outcome (Service.editImageWithGemini (Sample.failing EmptyString)
                                       Sample.imageData Sample.prompt)
  = Fulfilled {| success := false; image := None;
                 error := Some "An unexpected error occurred while communicating with Gemini." |}.
Proof. reflexivity. Qed.

Example no_candidates :
  outcome (Service.editImageWithGemini
             (fun _ => Fulfilled {| Sdk.candidates := Some [] |})
             Sample.imageData Sample.prompt)
  = Fulfilled {| success := false; image := None;
                 error := Some "No response candidates from Gemini." |}.
Proof. reflexivity. Qed.

Example explanation_only :
  outcome (Service.editImageWithGemini
             (Sample.answering [Sample.explanation])
             Sample.imageData Sample.prompt)
  = Fulfilled {| success := false; image := None;
                 error := Some "I cannot edit this image." |}.
Proof. reflexivity. Qed.

(** ** The request *)

Lemma editImageWithGemini_request
      (generateContent : Sdk.GenerateContent)
      (imageData : list Service.ImageData) (prompt : string) :
  imageData <> [] ->
  requests (Service.editImageWithGemini generateContent imageData prompt)
  = [Service.build_request imageData prompt].
Proof.
  intros Hne.
  destruct (generateContent (Service.build_request imageData prompt))
    as [response|[e|v]] eqn:Hcall.
  - destruct (parse_response_cases response)
      as [(r & Hparse & _) | (e & Hparse)].
    + now rewrite (editImageWithGemini_parsed _ _ _ _ _ Hne Hcall Hparse).
    + now rewrite (editImageWithGemini_parse_throws
                     _ _ _ _ _ Hne Hcall Hparse).
  - now rewrite (editImageWithGemini_rejected _ _ _ _ Hne Hcall).
  - now rewrite (editImageWithGemini_rejected_nullish _ _ _ _ Hne Hcall).
Qed.

Lemma promise_all_readable (images : list Editor.UploadedImage) :
  Forall (fun img => Editor.readable (Editor.file img) = true) images ->
  Editor.promise_all (map Editor.image_part_promise images)
  = Fulfilled
      (map (fun img =>
              {| Service.base64Data := Editor.readAsDataURL (Editor.file img);
                 Service.mimeType := Editor.mimeType img |})
           images).
Proof.
  induction 1 as [|img images Himg _ IH]; simpl.
  - reflexivity.
  - unfold Editor.image_part_promise at 1, Editor.convertBlobToBase64.
    rewrite Himg, IH. reflexivity.
Qed.

Lemma promise_all_fulfilled (images : list Editor.UploadedImage)
      (imageParts : list Service.ImageData) :
  Editor.promise_all (map Editor.image_part_promise images)
  = Fulfilled imageParts ->
  Forall (fun img => Editor.readable (Editor.file img) = true) images.
Proof.
  revert imageParts. induction images as [|img images IH]; intros imageParts.
  - constructor.
  - simpl. unfold Editor.image_part_promise at 1, Editor.convertBlobToBase64.
    destruct (Editor.readable (Editor.file img)) eqn:Himg; [|discriminate].
    destruct (Editor.promise_all (map Editor.image_part_promise images))
      as [l|e]; [|discriminate].
    intros _. constructor; [exact Himg | now apply (IH l)].
Qed.

Lemma handleGenerate_await_unreadable
      (generateContent : Sdk.GenerateContent) (st : Editor.EditorState) :
  ~ Forall (fun img => Editor.readable (Editor.file img) = true)
           (Editor.uploadedImages st) ->
  requests (Editor.handleGenerate_await generateContent st) = [].
Proof.
  intros Hbad. unfold Editor.handleGenerate_await.
  destruct (Editor.promise_all
              (map Editor.image_part_promise (Editor.uploadedImages st)))
    as [imageParts|e] eqn:Hall.
  - exfalso. apply Hbad. exact (promise_all_fulfilled _ _ Hall).
  - reflexivity.
Qed.

Lemma handleGenerate_await_readable
      (generateContent : Sdk.GenerateContent) (st : Editor.EditorState) :
  Editor.uploadedImages st <> [] ->
  Forall (fun img => Editor.readable (Editor.file img) = true)
         (Editor.uploadedImages st) ->
  Editor.handleGenerate_await generateContent st
  = Service.editImageWithGemini
      generateContent
      (map (fun img =>
              {| Service.base64Data := Editor.readAsDataURL (Editor.file img);
                 Service.mimeType := Editor.mimeType img |})
           (Editor.uploadedImages st))
      (Editor.prompt st).
Proof.
  intros Hne Hread. unfold Editor.handleGenerate_await.
  rewrite (promise_all_readable _ Hread). unfold bind.
  destruct (Service.editImageWithGemini _ _ _) as [log r]. reflexivity.
Qed.

(** C3. With a non-empty list of uploaded images and any prompt, a request
    submitted to the model has as its parts one text part carrying the
    prompt followed by one inline part per uploaded image, in upload order,
    each with that image's content type; and once the images have been
    read, exactly one such request is submitted. *)
Theorem submitted_request_parts
        (generateContent : Sdk.GenerateContent) (st : Editor.EditorState) :
  Editor.uploadedImages st <> [] ->
  (forall request,
      In request (requests (Editor.handleGenerate_await generateContent st)) ->
      Sdk.model request = "gemini-2.5-flash-image" /\
      Sdk.parts (Sdk.contents request)
      = Sdk.TextPart (Editor.prompt st)
          :: map (fun img =>
                    Sdk.InlineDataPart
                      (Editor.mimeType img)
                      (Service.clean_base64
                         (Editor.readAsDataURL (Editor.file img))))
                 (Editor.uploadedImages st)) /\
  (Forall (fun img => Editor.readable (Editor.file img) = true)
          (Editor.uploadedImages st) ->
   exists request,
     requests (Editor.handleGenerate_await generateContent st) = [request]).
Proof.
  intros Hne.
  assert (Hservice :
            Forall (fun img => Editor.readable (Editor.file img) = true)
                   (Editor.uploadedImages st) ->
            requests (Editor.handleGenerate_await generateContent st)
            = [Service.build_request
                 (map (fun img =>
                         {| Service.base64Data :=
                              Editor.readAsDataURL (Editor.file img);
                            Service.mimeType := Editor.mimeType img |})
                      (Editor.uploadedImages st))
                 (Editor.prompt st)]).
  { intros Hread. rewrite (handleGenerate_await_readable _ _ Hne Hread).
    apply editImageWithGemini_request.
    destruct (Editor.uploadedImages st); [congruence | discriminate]. }
  split.
  - intros request Hin.
    destruct (Forall_dec
                (fun img => Editor.readable (Editor.file img) = true)
                (fun img => bool_dec (Editor.readable (Editor.file img)) true)
                (Editor.uploadedImages st)) as [Hread | Hbad].
    + rewrite (Hservice Hread) in Hin. destruct Hin as [<- | []].
      split; [reflexivity|]. simpl. now rewrite map_map.
    + rewrite (handleGenerate_await_unreadable _ _ Hbad) in Hin.
      destruct Hin.
  - intros Hread. eexists. exact (Hservice Hread).
Qed.

Lemma submitted_request_parts_witness :
  Editor.uploadedImages (Sample.one_upload Sample.png_file) <> [] /\
  exists request,
    requests (Editor.handleGenerate_await
                (Sample.answering [Sample.untyped_image])
                (Sample.one_upload Sample.png_file))
    = [request] /\
    Sdk.parts (Sdk.contents request)
    = [Sdk.TextPart "Remove from this image those green markers";
       Sdk.InlineDataPart "image/png" "iVBORw0KGgo="].
Proof.
  assert (Hne : Editor.uploadedImages (Sample.one_upload Sample.png_file)
                <> []) by discriminate.
  split; [exact Hne|].
  destruct (submitted_request_parts (Sample.answering [Sample.untyped_image])
                                    _ Hne)
    as (Hparts & Hone).
  destruct Hone as (request & Hreq); [repeat constructor|].
  exists request. split; [exact Hreq|].
  apply Hparts. rewrite Hreq. now left.
Defined.

(** ** Cleaning the data URI *)

Lemma clean_base64_supported (f : Editor.File) :
  In (Editor.type f) ["image/png"; "image/jpeg"; "image/jpg"; "image/webp"] ->
  Service.clean_base64 (Editor.readAsDataURL f) = Editor.base64 f.
Proof.
  unfold Editor.readAsDataURL. simpl.
  intros [H | [H | [H | [H | []]]]]; rewrite <- H; reflexivity.
Qed.

(** C4, at a GIF upload.  The file passes the upload filter, yet the inline
    part sent for it carries the whole data URI, prefix included, and not
    the base64 text of the file: the pattern that strips the prefix names
    only png, jpeg, jpg and webp. *)
Theorem gif_upload_keeps_data_uri_prefix
        (generateContent : Sdk.GenerateContent) :
  JS.startsWith (Editor.type Sample.gif_file) "image/" = true /\
  map Editor.file (Editor.uploadedImages (Sample.one_upload Sample.gif_file))
  = [Sample.gif_file] /\
  fst (Editor.handleGenerate generateContent
                             (Sample.one_upload Sample.gif_file))
  = [ {| Sdk.model := "gemini-2.5-flash-image";
         Sdk.contents :=
           {| Sdk.parts :=
                [Sdk.TextPart "Remove from this image those green markers";
                 Sdk.InlineDataPart "image/gif"
                                    "data:image/gif;base64,R0lGODlh"] |} |} ] /\
  Editor.base64 Sample.gif_file = "R0lGODlh" /\
  Service.clean_base64 (Editor.readAsDataURL Sample.gif_file)
  <> Editor.base64 Sample.gif_file.
Proof.
  split; [reflexivity|]. split; [reflexivity|].
  split; [|split; [reflexivity | discriminate]].
  unfold Editor.handleGenerate.
  change (Editor.submission_blocked (Sample.one_upload Sample.gif_file))
    with false.
  cbv iota. unfold fst at 1.
  rewrite handleGenerate_await_readable;
    [| discriminate | repeat constructor].
  rewrite editImageWithGemini_request; [reflexivity | discriminate].
Qed.

(** ** Blank prompts *)

Lemma trimEnd_empty (s : string) :
  JS.trimEnd s = EmptyString <-> blank s.
Proof.
  unfold blank. induction s as [|c s IH]; simpl.
  - split; [constructor | reflexivity].
  - destruct (JS.trimEnd s) as [|d r].
    + destruct (JS.is_white_space c) eqn:Hc; split; intro H.
      * constructor; [exact Hc | now apply IH].
      * reflexivity.
      * discriminate.
      * inversion H; congruence.
    + split; intro H; [discriminate|].
      inversion H as [|? ? _ Hs]; subst. apply IH in Hs. discriminate.
Qed.

Lemma trimStart_blank (s : string) :
  blank (JS.trimStart s) <-> blank s.
Proof.
  unfold blank. induction s as [|c s IH]; simpl.
  - reflexivity.
  - destruct (JS.is_white_space c) eqn:Hc.
    + rewrite IH. split; intro H.
      * constructor; assumption.
      * now inversion H.
    + reflexivity.
Qed.

Lemma trim_empty (s : string) :
  JS.trim s = EmptyString <-> blank s.
Proof.
  unfold JS.trim. rewrite trimEnd_empty. apply trimStart_blank.
Qed.

Example trim_keeps_inner_space :
  JS.trim "  add  sunglasses " = "add  sunglasses".
Proof. reflexivity. Qed.

Lemma submission_blocked_iff (st : Editor.EditorState) :
  Editor.submission_blocked st = true
  <-> Editor.uploadedImages st = [] \/ blank (Editor.prompt st).
Proof.
  unfold Editor.submission_blocked.
  rewrite orb_true_iff, negb_true_iff, truthy_empty, trim_empty.
  rewrite Nat.eqb_eq, length_zero_iff_nil. reflexivity.
Qed.

(** ** The submission check *)

(** C5. With no uploaded image or with a blank prompt (empty or made of
    white space only), a generate action sets the error message to the
    fixed text and returns without calling the model. *)
Theorem handleGenerate_blocks_missing_input
        (generateContent : Sdk.GenerateContent) (st : Editor.EditorState) :
  Editor.uploadedImages st = [] \/ blank (Editor.prompt st) ->
  Editor.handleGenerate generateContent st
  = ([],
     Editor.setErrorMessage
       "Please upload at least one image and provide a prompt." st).
Proof.
  intros Hblocked. apply submission_blocked_iff in Hblocked.
  unfold Editor.handleGenerate, Editor.handleGenerate_begin.
  rewrite Hblocked. reflexivity.
Qed.

Lemma handleGenerate_blocks_missing_input_witness :
  blank (Editor.prompt Sample.blank_prompt) /\
  Editor.handleGenerate (Sample.answering [Sample.untyped_image])
                        Sample.blank_prompt
  = ([],
     Editor.setErrorMessage
       "Please upload at least one image and provide a prompt."
       Sample.blank_prompt).
Proof.
  assert (Hblank : blank (Editor.prompt Sample.blank_prompt))
    by (repeat constructor).
  split; [exact Hblank|].
  apply (handleGenerate_blocks_missing_input
           (Sample.answering [Sample.untyped_image]) Sample.blank_prompt).
  right. exact Hblank.
Defined.

(** C10. A generate action blocked by the submission check changes the
    error message only: the status, the uploaded images, the result URL
    and the prompt stay as they were. *)
Theorem handleGenerate_blocked_frame
        (generateContent : Sdk.GenerateContent) (st : Editor.EditorState) :
  Editor.uploadedImages st = [] \/ blank (Editor.prompt st) ->
  Editor.appState (snd (Editor.handleGenerate generateContent st))
  = Editor.appState st /\
  Editor.uploadedImages (snd (Editor.handleGenerate generateContent st))
  = Editor.uploadedImages st /\
  Editor.resultUrl (snd (Editor.handleGenerate generateContent st))
  = Editor.resultUrl st /\
  Editor.prompt (snd (Editor.handleGenerate generateContent st))
  = Editor.prompt st.
Proof.
  intros Hblocked. apply submission_blocked_iff in Hblocked.
  unfold Editor.handleGenerate, Editor.handleGenerate_begin.
  rewrite Hblocked. simpl. repeat split.
Qed.

Lemma handleGenerate_blocked_frame_witness :
  Editor.uploadedImages Editor.initial = [] /\
  Editor.appState
    (snd (Editor.handleGenerate (Sample.failing "offline") Editor.initial))
  = IDLE /\
  Editor.prompt
    (snd (Editor.handleGenerate (Sample.failing "offline") Editor.initial))
  = "Remove from this image those green markers".
Proof.
  split; [reflexivity|].
  destruct (handleGenerate_blocked_frame (Sample.failing "offline")
                                         Editor.initial
                                         (or_introl eq_refl))
    as (Hstate & _ & _ & Hprompt).
  split; [exact Hstate | exact Hprompt].
Defined.

(** ** Uploading *)

Lemma skip_message_nonempty (f : Editor.File) :
  JS.truthy (Editor.skip_message f) = true.
Proof. reflexivity. Qed.

Lemma append_assoc (a b c : string) :
  ((a ++ b) ++ c = a ++ b ++ c)%string.
Proof. induction a as [|x a IH]; simpl; [reflexivity | now rewrite IH]. Qed.

Lemma truthy_append_l (a b : string) :
  JS.truthy a = true -> JS.truthy (a ++ b) = true.
Proof. destruct a; [discriminate | reflexivity]. Qed.

(** The skip messages pile up from the left, one space between two. *)
Lemma accumulate_skips (skipped : list Editor.File) (prev : string) :
  JS.truthy prev = true ->
  fold_left (fun acc f => Editor.append_skip f acc) skipped prev
  = match skipped with
    | [] => prev
    | _ :: _ =>
        (prev ++ " "
              ++ String.concat " " (map Editor.skip_message skipped))%string
    end.
Proof.
  revert prev. induction skipped as [|f rest IH]; intros prev Hprev.
  - reflexivity.
  - cbn [fold_left]. rewrite IH.
    + unfold Editor.append_skip. rewrite Hprev.
      destruct rest as [|g rest']; cbn [map String.concat].
      * apply append_assoc.
      * now rewrite !append_assoc.
    + unfold Editor.append_skip. rewrite Hprev.
      now rewrite append_assoc, truthy_append_l.
Qed.

Lemma accumulate_skips_from_empty (skipped : list Editor.File) :
  fold_left (fun acc f => Editor.append_skip f acc) skipped EmptyString
  = String.concat " " (map Editor.skip_message skipped).
Proof.
  destruct skipped as [|f rest]; [reflexivity|].
  cbn [fold_left]. rewrite accumulate_skips by reflexivity.
  destruct rest; reflexivity.
Qed.

Lemma processFiles_loop_spec (env : Editor.Browser)
      (selectedFiles : list Editor.File) :
  forall (i : nat) (newImages : list Editor.UploadedImage)
         (st : Editor.EditorState),
  exists added,
    Editor.processFiles_loop env i selectedFiles newImages st
    = (newImages ++ added,
       Editor.setErrorMessage
         (fold_left (fun acc f => Editor.append_skip f acc)
                    (filter (fun f => negb (JS.startsWith (Editor.type f)
                                                          "image/"))
                            selectedFiles)
                    (Editor.errorMessage st))
         st) /\
    map Editor.file added
    = filter (fun f => JS.startsWith (Editor.type f) "image/") selectedFiles /\
    Forall (fun img => Editor.mimeType img = Editor.type (Editor.file img))
           added.
Proof.
  induction selectedFiles as [|f rest IH]; intros i newImages st.
  - exists []. rewrite app_nil_r. destruct st. repeat split. constructor.
  - cbn [Editor.processFiles_loop filter].
    destruct (JS.startsWith (Editor.type f) "image/") eqn:Himage;
      cbn [negb].
    + destruct (IH (S i) (newImages ++ [Editor.new_image env i f]) st)
        as (added & -> & Hfiles & Htypes).
      exists (Editor.new_image env i f :: added).
      rewrite <- app_assoc. repeat split.
      * cbn [map]. now rewrite Hfiles.
      * constructor; [reflexivity | exact Htypes].
    + destruct (IH i newImages
                   (Editor.updateErrorMessage (Editor.append_skip f) st))
        as (added & -> & Hfiles & Htypes).
      exists added. repeat split; assumption.
Qed.

(** C6. Of the files handed to an upload, those whose type does not start
    with [image/] are left out of the uploaded-image list and each adds
    its skip message to the error message (which starts out cleared, the
    messages being joined by single spaces, in input order); those whose
    type starts with [image/] are appended to the uploaded images already
    there, in input order. *)
Theorem processFiles_skips_non_images
        (env : Editor.Browser) (t0 : nat)
        (selectedFiles : list Editor.File) (st : Editor.EditorState) :
  exists added,
    Editor.uploadedImages (Editor.processFiles env t0 selectedFiles st)
    = Editor.uploadedImages st ++ added /\
    map Editor.file added
    = filter (fun f => JS.startsWith (Editor.type f) "image/") selectedFiles /\
    Editor.errorMessage (Editor.processFiles env t0 selectedFiles st)
    = String.concat
        " "
        (map Editor.skip_message
             (filter (fun f => negb (JS.startsWith (Editor.type f) "image/"))
                     selectedFiles)).
Proof.
  unfold Editor.processFiles.
  destruct (processFiles_loop_spec env selectedFiles t0 []
              (Editor.setErrorMessage EmptyString st))
    as (added & -> & Hfiles & _).
  exists added. cbn. repeat split.
  - exact Hfiles.
  - apply accumulate_skips_from_empty.
Qed.

Example upload_mixed_files :
  let st := Editor.processFiles Sample.browser 0
              [Sample.text_file; Sample.gif_file; Sample.text_file]
              (Sample.one_upload Sample.png_file) in
  map Editor.file (Editor.uploadedImages st)
  = [Sample.png_file; Sample.gif_file] /\
  Editor.errorMessage st
  = ("File " ++ JS.dquote ++ "notes.txt" ++ JS.dquote
             ++ " is not a valid image. Skipping. "
             ++ "File " ++ JS.dquote ++ "notes.txt" ++ JS.dquote
             ++ " is not a valid image. Skipping.")%string.
Proof. split; reflexivity. Qed.

(** ** The UI status *)

Lemma handleGenerate_begin_passes (st : Editor.EditorState) :
  Editor.submission_blocked st = false ->
  Editor.handleGenerate_begin st
  = Editor.setErrorMessage EmptyString (Editor.setAppState PROCESSING st).
Proof.
  intros Hpass. unfold Editor.handleGenerate_begin. now rewrite Hpass.
Qed.

Lemma handleGenerate_await_shape
      (generateContent : Sdk.GenerateContent) (st : Editor.EditorState) :
  (exists e,
      outcome (Editor.handleGenerate_await generateContent st) = Rejected e) \/
  (exists r,
      outcome (Editor.handleGenerate_await generateContent st) = Fulfilled r /\
      response_shape r).
Proof.
  unfold Editor.handleGenerate_await.
  destruct (Editor.promise_all
              (map Editor.image_part_promise (Editor.uploadedImages st)))
    as [imageParts|e].
  - destruct (editImageWithGemini_shape generateContent imageParts
                                        (Editor.prompt st))
      as [(r & Hr & Hshape) | (_ & v & _ & Hrej)].
    + right. exists r. split; [|exact Hshape].
      unfold bind, outcome in *.
      destruct (Service.editImageWithGemini _ _ _) as [log r']. exact Hr.
    + left. eexists.
      unfold bind, outcome in *.
      destruct (Service.editImageWithGemini _ _ _) as [log r']. exact Hrej.
  - left. exists e. reflexivity.
Qed.

(** C7. The UI status is one of the four values IDLE, PROCESSING, SUCCESS
    and ERROR, all different.  A generate action that passes the
    submission check sets it to PROCESSING; when the awaited call has
    settled, whatever the state is by then, the status becomes SUCCESS
    exactly when the service fulfilled with a response whose [success] is
    true and whose image is present, and ERROR in every other case. *)
Theorem appState_after_generate
        (generateContent : Sdk.GenerateContent) (st : Editor.EditorState) :
  Editor.submission_blocked st = false ->
  (forall s : AppState, In s [IDLE; PROCESSING; SUCCESS; ERROR]) /\
  NoDup [IDLE; PROCESSING; SUCCESS; ERROR] /\
  Editor.appState (Editor.handleGenerate_begin st) = PROCESSING /\
  snd (Editor.handleGenerate generateContent st)
  = Editor.handleGenerate_finish
      (outcome (Editor.handleGenerate_await generateContent st))
      (Editor.handleGenerate_begin st) /\
  forall later : Editor.EditorState,
    let served :=
      exists response img,
        outcome (Editor.handleGenerate_await generateContent st)
        = Fulfilled response /\
        success response = true /\
        image response = Some img in
    let final :=
      Editor.handleGenerate_finish
        (outcome (Editor.handleGenerate_await generateContent st)) later in
    (served -> Editor.appState final = SUCCESS) /\
    (~ served -> Editor.appState final = ERROR).
Proof.
  intros Hpass. split; [|split; [|split; [|split]]].
  - intros []; simpl; auto.
  - repeat constructor; simpl; intuition discriminate.
  - now rewrite (handleGenerate_begin_passes _ Hpass).
  - unfold Editor.handleGenerate. now rewrite Hpass.
  - intros later served final. subst served final.
    destruct (handleGenerate_await_shape generateContent st)
      as [(e & ->) | (r & -> & Hshape)].
    + split.
      * intros (response & img & Habs & _). discriminate.
      * reflexivity.
    + destruct Hshape as [img Himg | msg Hmsg].
      * split.
        -- intros _. simpl. apply truthy_nonempty in Himg.
           now rewrite Himg.
        -- intros Hnot. exfalso. apply Hnot. eexists _, img. repeat split.
      * split.
        -- intros (response & img & [= <-] & Hsuccess & _). discriminate.
        -- reflexivity.
Qed.

Lemma appState_after_generate_witness :
  Editor.submission_blocked (Sample.one_upload Sample.png_file) = false /\
  Editor.appState
    (Editor.handleGenerate_begin (Sample.one_upload Sample.png_file))
  = PROCESSING /\
  Editor.appState
    (snd (Editor.handleGenerate (Sample.answering [Sample.untyped_image])
                                (Sample.one_upload Sample.png_file)))
  = SUCCESS /\
  Editor.appState
    (snd (Editor.handleGenerate (Sample.answering [Sample.explanation])
                                (Sample.one_upload Sample.png_file)))
  = ERROR.
Proof.
  split; [reflexivity|].
  destruct (appState_after_generate
              (Sample.answering [Sample.untyped_image])
              (Sample.one_upload Sample.png_file) eq_refl)
    as (_ & _ & Hbegin & Hrun & Hfinal).
  destruct (appState_after_generate
              (Sample.answering [Sample.explanation])
              (Sample.one_upload Sample.png_file) eq_refl)
    as (_ & _ & _ & Hrun' & Hfinal').
  split; [exact Hbegin|]. split.
  - rewrite Hrun. apply Hfinal.
    eexists _, _. repeat split.
  - rewrite Hrun'. apply Hfinal'.
    intros (response & img & [= <-] & Hsuccess & _). discriminate.
Defined.

(** * Further properties of the service *)

Lemma strip_prefix_some (p s r : string) :
  JS.strip_prefix p s = Some r <-> s = (p ++ r)%string.
Proof.
  revert s. induction p as [|a p IH]; intros s; simpl.
  - split; [intros [= ->]; reflexivity | intros ->; reflexivity].
  - destruct s as [|b s]; [split; discriminate|].
    destruct (Ascii.eqb a b) eqn:Hab.
    + apply Ascii.eqb_eq in Hab as ->. rewrite IH.
      split; [intros ->; reflexivity | intros [= ->]; reflexivity].
    + apply Ascii.eqb_neq in Hab.
      split; [discriminate | intros [= Hb _]; congruence].
Qed.

Lemma alternation_some (alts : list string) (k : string -> option string)
      (s r : string) :
  JS.alternation alts k s = Some r ->
  exists a rest,
    In a alts /\ JS.strip_prefix a s = Some rest /\ k rest = Some r.
Proof.
  induction alts as [|a alts IH]; simpl; [discriminate|].
  destruct (JS.strip_prefix a s) as [rest|] eqn:Ha.
  - destruct (k rest) as [r'|] eqn:Hk.
    + intros [= <-]. exists a, rest. auto.
    + intros H. destruct (IH H) as (a' & rest' & Hin & H1 & H2).
      exists a', rest'. auto.
  - intros H. destruct (IH H) as (a' & rest' & Hin & H1 & H2).
    exists a', rest'. auto.
Qed.

(** X1. Cleaning never alters the payload: the result is either the input
    itself or the input without one leading
    [data:image/<subtype>;base64,] where the subtype is png, jpeg, jpg or
    webp. *)
Theorem clean_base64_strips_one_prefix (s : string) :
  Service.clean_base64 s = s \/
  exists subtype,
    In subtype ["png"; "jpeg"; "jpg"; "webp"] /\
    s = ("data:image/" ++ subtype ++ ";base64,"
                       ++ Service.clean_base64 s)%string.
Proof.
  unfold Service.clean_base64, Service.data_uri_prefix_match.
  destruct (JS.strip_prefix "data:image/" s) as [rest|] eqn:Hhead;
    [|now left].
  destruct (JS.alternation _ _ rest) as [r|] eqn:Halt; [|now left].
  right. apply strip_prefix_some in Hhead.
  destruct (alternation_some _ _ _ _ Halt) as (a & mid & Hin & Ha & Hk).
  apply strip_prefix_some in Ha, Hk. exists a. split; [exact Hin|].
  now rewrite Hhead, Ha, Hk.
Qed.

(** X2. Round trip with the data-URI prefix: for each of the four
    subtypes, cleaning a payload that was prefixed with
    [data:image/<subtype>;base64,] gives the payload back, whatever the
    payload is (a prefix inside the payload is not stripped again). *)
Theorem clean_base64_round_trip (subtype payload : string) :
  In subtype ["png"; "jpeg"; "jpg"; "webp"] ->
  Service.clean_base64
    ("data:image/" ++ subtype ++ ";base64," ++ payload)%string
  = payload.
Proof.
  intros [<- | [<- | [<- | [<- | []]]]]; reflexivity.
Qed.

Lemma clean_base64_round_trip_witness :
  In "webp" ["png"; "jpeg"; "jpg"; "webp"] /\
  Service.clean_base64
    "data:image/webp;base64,data:image/png;base64,UklGRg=="
  = "data:image/png;base64,UklGRg==".
Proof.
  assert (Hin : In "webp" ["png"; "jpeg"; "jpg"; "webp"])
    by (simpl; auto).
  split; [exact Hin|].
  exact (clean_base64_round_trip "webp" "data:image/png;base64,UklGRg=="
                                 Hin).
Defined.

(** X3. The service calls the model at most once: not at all when it is
    given no image, and exactly once, with the request built from its
    arguments, otherwise (whether the call then succeeds or fails, and
    also when the prompt is empty). *)
Theorem editImageWithGemini_single_call
        (generateContent : Sdk.GenerateContent)
        (imageData : list Service.ImageData) (prompt : string) :
  requests (Service.editImageWithGemini generateContent imageData prompt)
  = match imageData with
    | [] => []
    | _ :: _ => [Service.build_request imageData prompt]
    end.
Proof.
  destruct imageData as [|img rest].
  - now rewrite editImageWithGemini_no_images.
  - apply editImageWithGemini_request. discriminate.
Qed.

(** X4. Only the first candidate of a response is consulted: two responses
    that agree on their first candidate give the same result, whatever
    the other candidates carry. *)
Theorem editImageWithGemini_first_candidate_only
        (generateContent generateContent' : Sdk.GenerateContent)
        (imageData : list Service.ImageData) (prompt : string)
        (candidate : Sdk.Candidate) (others others' : list Sdk.Candidate) :
  imageData <> [] ->
  generateContent (Service.build_request imageData prompt)
  = Fulfilled {| Sdk.candidates := Some (candidate :: others) |} ->
  generateContent' (Service.build_request imageData prompt)
  = Fulfilled {| Sdk.candidates := Some (candidate :: others') |} ->
  Service.editImageWithGemini generateContent imageData prompt
  = Service.editImageWithGemini generateContent' imageData prompt.
Proof.
  intros Hne Hcall Hcall'.
  rewrite (editImageWithGemini_fulfilled _ _ _ _ Hne Hcall).
  rewrite (editImageWithGemini_fulfilled _ _ _ _ Hne Hcall').
  reflexivity.
Qed.

Lemma editImageWithGemini_first_candidate_only_witness :
  Sample.imageData <> [] /\
  outcome
    (Service.editImageWithGemini
       (fun _ =>
          Fulfilled
            {| Sdk.candidates :=
                 Some [ {| Sdk.content :=
                             Some {| Sdk.content_parts :=
                                       Some [Sample.explanation] |} |};
                        {| Sdk.content :=
                             Some {| Sdk.content_parts :=
                                       Some [Sample.jpeg_image] |} |} ] |})
       Sample.imageData Sample.prompt)
  = Fulfilled {| success := false; image := None;
                 error := Some "I cannot edit this image." |}.
Proof.
  assert (Hne : Sample.imageData <> []) by discriminate.
  split; [exact Hne|].
  rewrite (editImageWithGemini_first_candidate_only
             _ (Sample.answering [Sample.explanation])
             Sample.imageData Sample.prompt _ _ [] Hne eq_refl eq_refl).
  reflexivity.
Defined.

(** X5. A failed call is reported with the message of what was thrown,
    verbatim, when that message is not empty, and with the fixed text
    otherwise. *)
Theorem editImageWithGemini_reports_thrown_message
        (generateContent : Sdk.GenerateContent)
        (imageData : list Service.ImageData) (prompt : string)
        (e : JsError) :
  imageData <> [] ->
  generateContent (Service.build_request imageData prompt) = Rejected e ->
  outcome (Service.editImageWithGemini generateContent imageData prompt)
  = Fulfilled
      {| success := false; image := None;
         error :=
           Some (if String.eqb (message e) EmptyString
                 then "An unexpected error occurred while communicating with Gemini."
                 else message e) |}.
Proof.
  intros Hne Hcall.
  rewrite (editImageWithGemini_rejected _ _ _ _ Hne Hcall).
  destruct e as [[|c m]]; reflexivity.
Qed.

Lemma editImageWithGemini_reports_thrown_message_witness :
  Sample.imageData <> [] /\
  outcome (Service.editImageWithGemini (Sample.failing "quota exceeded")
                                       Sample.imageData Sample.prompt)
  = Fulfilled {| success := false; image := None;
                 error := Some "quota exceeded" |}.
Proof.
  assert (Hne : Sample.imageData <> []) by discriminate.
  split; [exact Hne|].
  exact (editImageWithGemini_reports_thrown_message
           (Sample.failing "quota exceeded") Sample.imageData Sample.prompt
           {| message := "quota exceeded" |} Hne eq_refl).
Defined.

(** * Further properties of the generate action *)

Lemma promise_all_rejected (images : list Editor.UploadedImage) :
  Exists (fun img => Editor.readable (Editor.file img) = false) images ->
  exists e,
    Editor.promise_all (map Editor.image_part_promise images) = Rejected e.
Proof.
  induction images as [|img images IH]; intros Hex.
  - inversion Hex.
  - simpl. unfold Editor.image_part_promise at 1, Editor.convertBlobToBase64.
    destruct (Editor.readable (Editor.file img)) eqn:Himg.
    + inversion Hex as [? ? Hbad | ? ? Hrest]; subst; [congruence|].
      destruct (IH Hrest) as (e & ->). now exists e.
    + eexists. reflexivity.
Qed.

Lemma handleGenerate_finish_frame (settled : Settled EditResponse)
      (st : Editor.EditorState) :
  Editor.uploadedImages (Editor.handleGenerate_finish settled st)
  = Editor.uploadedImages st /\
  Editor.prompt (Editor.handleGenerate_finish settled st) = Editor.prompt st.
Proof.
  destruct settled as [response|e]; simpl; [|split; reflexivity].
  destruct (success response && JS.truthy_opt (image response));
    split; reflexivity.
Qed.

Lemma handleGenerate_begin_frame (st : Editor.EditorState) :
  Editor.uploadedImages (Editor.handleGenerate_begin st)
  = Editor.uploadedImages st /\
  Editor.prompt (Editor.handleGenerate_begin st) = Editor.prompt st /\
  Editor.resultUrl (Editor.handleGenerate_begin st) = Editor.resultUrl st.
Proof.
  unfold Editor.handleGenerate_begin.
  destruct (Editor.submission_blocked st); repeat split.
Qed.

(** X6. When every uploaded file has type image/png, image/jpeg,
    image/jpg or image/webp and can be read, the one request submitted
    carries, for each image in upload order, the base64 text of the
    file's bytes itself, with the file's content type. *)
Theorem supported_uploads_send_file_content
        (generateContent : Sdk.GenerateContent) (st : Editor.EditorState) :
  Editor.uploadedImages st <> [] ->
  Forall (fun img =>
            Editor.readable (Editor.file img) = true /\
            In (Editor.type (Editor.file img))
               ["image/png"; "image/jpeg"; "image/jpg"; "image/webp"])
         (Editor.uploadedImages st) ->
  requests (Editor.handleGenerate_await generateContent st)
  = [ {| Sdk.model := "gemini-2.5-flash-image";
         Sdk.contents :=
           {| Sdk.parts :=
                Sdk.TextPart (Editor.prompt st)
                  :: map (fun img =>
                            Sdk.InlineDataPart
                              (Editor.mimeType img)
                              (Editor.base64 (Editor.file img)))
                         (Editor.uploadedImages st) |} |} ].
Proof.
  intros Hne Hall.
  assert (Hread : Forall (fun img => Editor.readable (Editor.file img) = true)
                         (Editor.uploadedImages st)).
  { eapply Forall_impl; [|exact Hall]. now intros img [H _]. }
  rewrite (handleGenerate_await_readable _ _ Hne Hread).
  rewrite editImageWithGemini_request
    by (destruct (Editor.uploadedImages st); [congruence | discriminate]).
  unfold Service.build_request. rewrite map_map. do 4 f_equal.
  apply map_ext_in. intros img Hin.
  rewrite Forall_forall in Hall. destruct (Hall img Hin) as [_ Htype].
  unfold Service.image_part. cbn [Service.mimeType Service.base64Data].
  now rewrite (clean_base64_supported _ Htype).
Qed.

Lemma supported_uploads_send_file_content_witness :
  Editor.uploadedImages (Scenario.uploads [Sample.png_file;
                                           Scenario.jpeg_file]) <> [] /\
  map Sdk.parts
      (map Sdk.contents
           (requests (Editor.handleGenerate_await
                        (Sample.failing "offline")
                        (Scenario.uploads [Sample.png_file;
                                           Scenario.jpeg_file]))))
  = [[Sdk.TextPart "Remove from this image those green markers";
      Sdk.InlineDataPart "image/png" "iVBORw0KGgo=";
      Sdk.InlineDataPart "image/jpeg" "/9j/4AAQ"]].
Proof.
  assert (Hne : Editor.uploadedImages
                  (Scenario.uploads [Sample.png_file; Scenario.jpeg_file])
                <> []) by discriminate.
  split; [exact Hne|].
  rewrite (supported_uploads_send_file_content (Sample.failing "offline")
                                               _ Hne).
  - reflexivity.
  - apply Forall_cons; [split; [reflexivity | simpl; auto]|].
    apply Forall_cons; [split; [reflexivity | simpl; auto]|].
    apply Forall_nil.
Defined.

(** X7. Whenever the Generate button is enabled, the handler's own
    submission check passes: the action clears the error message and
    sets the status to PROCESSING, which disables the button. *)
Theorem enabled_button_passes_check (st : Editor.EditorState) :
  Ui.generate_disabled st = false ->
  Editor.submission_blocked st = false /\
  Editor.handleGenerate_begin st
  = Editor.setErrorMessage EmptyString (Editor.setAppState PROCESSING st) /\
  Ui.generate_disabled (Editor.handleGenerate_begin st) = true.
Proof.
  unfold Ui.generate_disabled. intros Henabled.
  apply orb_false_iff in Henabled as [Hpass _].
  assert (Hblocked : Editor.submission_blocked st = false) by exact Hpass.
  split; [exact Hblocked|].
  rewrite (handleGenerate_begin_passes _ Hblocked).
  split; [reflexivity|]. simpl. apply orb_true_r.
Qed.

Lemma enabled_button_passes_check_witness :
  Ui.generate_disabled Scenario.with_result = false /\
  Editor.appState (Editor.handleGenerate_begin Scenario.with_result)
  = PROCESSING /\
  Ui.generate_disabled (Editor.handleGenerate_begin Scenario.with_result)
  = true.
Proof.
  split; [reflexivity|].
  destruct (enabled_button_passes_check Scenario.with_result eq_refl)
    as (_ & Hbegin & Hdisabled).
  split; [now rewrite Hbegin | exact Hdisabled].
Defined.

(** X8. A generate action, however it ends, leaves the uploaded images
    and the prompt as they were. *)
Theorem handleGenerate_keeps_uploads_and_prompt
        (generateContent : Sdk.GenerateContent) (st : Editor.EditorState) :
  Editor.uploadedImages (snd (Editor.handleGenerate generateContent st))
  = Editor.uploadedImages st /\
  Editor.prompt (snd (Editor.handleGenerate generateContent st))
  = Editor.prompt st.
Proof.
  unfold Editor.handleGenerate.
  destruct (handleGenerate_begin_frame st) as (Hu & Hp & _).
  destruct (Editor.submission_blocked st); cbn [snd].
  - split; assumption.
  - destruct (handleGenerate_finish_frame
                (outcome (Editor.handleGenerate_await generateContent st))
                (Editor.handleGenerate_begin st)) as (Hu' & Hp').
    split; congruence.
Qed.

(** X9. How a generate action that passed the check ends, once the
    service has answered: on success the result URL is the returned
    image, the status SUCCESS and the error message empty; on failure
    the status is ERROR, the error message is the service's own error
    string (never empty), and the result URL shown before is kept. *)
Theorem handleGenerate_after_service_answer
        (generateContent : Sdk.GenerateContent) (st : Editor.EditorState)
        (response : EditResponse) :
  Editor.submission_blocked st = false ->
  outcome (Editor.handleGenerate_await generateContent st)
  = Fulfilled response ->
  (success response = true ->
   snd (Editor.handleGenerate generateContent st)
   = {| Editor.uploadedImages := Editor.uploadedImages st;
        Editor.resultUrl := image response;
        Editor.prompt := Editor.prompt st;
        Editor.appState := SUCCESS;
        Editor.errorMessage := EmptyString |}) /\
  (success response = false ->
   exists msg,
     error response = Some msg /\
     msg <> EmptyString /\
     snd (Editor.handleGenerate generateContent st)
     = {| Editor.uploadedImages := Editor.uploadedImages st;
          Editor.resultUrl := Editor.resultUrl st;
          Editor.prompt := Editor.prompt st;
          Editor.appState := ERROR;
          Editor.errorMessage := msg |}).
Proof.
  intros Hpass Hanswer. unfold Editor.handleGenerate.
  rewrite Hpass, (handleGenerate_begin_passes _ Hpass). cbn [snd].
  destruct (handleGenerate_await_shape generateContent st)
    as [(e & He) | (r & Hr & Hshape)]; [congruence|].
  rewrite Hanswer in *. injection Hr as <-.
  destruct Hshape as [img Himg | msg Hmsg]; split; try discriminate.
  - intros _. simpl. apply truthy_nonempty in Himg. now rewrite Himg.
  - intros _. exists msg. repeat split; [exact Hmsg|].
    destruct msg; [congruence | reflexivity].
Qed.

Lemma handleGenerate_after_service_answer_witness :
  Editor.submission_blocked Scenario.with_result = false /\
  snd (Editor.handleGenerate (Sample.answering [Sample.explanation])
                             Scenario.with_result)
  = {| Editor.uploadedImages := Editor.uploadedImages Scenario.with_result;
       Editor.resultUrl := Some "data:image/png;base64,QUJD";
       Editor.prompt := "Remove from this image those green markers";
       Editor.appState := ERROR;
       Editor.errorMessage := "I cannot edit this image." |}.
Proof.
  split; [reflexivity|].
  destruct (handleGenerate_after_service_answer
              (Sample.answering [Sample.explanation]) Scenario.with_result
              _ eq_refl eq_refl) as (_ & Hfail).
  destruct (Hfail eq_refl) as (msg & [= <-] & _ & ->). reflexivity.
Defined.

(** X10. When the check passes but one of the uploaded files cannot be
    read, no request is submitted and the action ends in ERROR with the
    fixed message, the result URL shown before being kept. *)
Theorem handleGenerate_unreadable_file
        (generateContent : Sdk.GenerateContent) (st : Editor.EditorState) :
  Editor.submission_blocked st = false ->
  Exists (fun img => Editor.readable (Editor.file img) = false)
         (Editor.uploadedImages st) ->
  Editor.handleGenerate generateContent st
  = ([],
     {| Editor.uploadedImages := Editor.uploadedImages st;
        Editor.resultUrl := Editor.resultUrl st;
        Editor.prompt := Editor.prompt st;
        Editor.appState := ERROR;
        Editor.errorMessage := "An unexpected error occurred." |}).
Proof.
  intros Hpass Hbad. unfold Editor.handleGenerate.
  rewrite Hpass, (handleGenerate_begin_passes _ Hpass).
  unfold Editor.handleGenerate_await.
  destruct (promise_all_rejected _ Hbad) as (e & ->). reflexivity.
Qed.

Lemma handleGenerate_unreadable_file_witness :
  Editor.submission_blocked
    (Scenario.uploads [Sample.png_file; Scenario.broken_file]) = false /\
  fst (Editor.handleGenerate
         (Sample.answering [Sample.untyped_image])
         (Scenario.uploads [Sample.png_file; Scenario.broken_file]))
  = [] /\
  Editor.errorMessage
    (snd (Editor.handleGenerate
            (Sample.answering [Sample.untyped_image])
            (Scenario.uploads [Sample.png_file; Scenario.broken_file])))
  = "An unexpected error occurred.".
Proof.
  split; [reflexivity|].
  rewrite (handleGenerate_unreadable_file
             (Sample.answering [Sample.untyped_image])
             (Scenario.uploads [Sample.png_file; Scenario.broken_file])
             eq_refl).
  - split; reflexivity.
  - apply Exists_cons_tl, Exists_cons_hd. reflexivity.
Defined.

(** * Further properties of uploading and removing *)

Lemma processFiles_spec (env : Editor.Browser) (t0 : nat)
      (selectedFiles : list Editor.File) (st : Editor.EditorState) :
  exists added,
    Editor.processFiles env t0 selectedFiles st
    = {| Editor.uploadedImages := Editor.uploadedImages st ++ added;
         Editor.resultUrl := None;
         Editor.prompt := Editor.prompt st;
         Editor.appState := IDLE;
         Editor.errorMessage :=
           String.concat
             " "
             (map Editor.skip_message
                  (filter (fun f => negb (JS.startsWith (Editor.type f)
                                                        "image/"))
                          selectedFiles)) |} /\
    map Editor.file added
    = filter (fun f => JS.startsWith (Editor.type f) "image/") selectedFiles /\
    Forall (fun img => Editor.mimeType img = Editor.type (Editor.file img))
           added.
Proof.
  unfold Editor.processFiles.
  destruct (processFiles_loop_spec env selectedFiles t0 []
              (Editor.setErrorMessage EmptyString st))
    as (added & -> & Hfiles & Htypes).
  exists added. split; [|split; assumption].
  cbn. now rewrite accumulate_skips_from_empty.
Qed.

Lemma concat_skip_messages_empty (skipped : list Editor.File) :
  String.concat " " (map Editor.skip_message skipped) = EmptyString
  <-> skipped = [].
Proof.
  split; [|now intros ->].
  destruct skipped as [|f [|g rest]]; [reflexivity | |]; discriminate.
Qed.

(** X11. A drop or a file selection that carries no file changes nothing.
    One that carries at least one file, of whatever type, discards the
    result on display and returns the status to IDLE; the prompt stays. *)
Theorem handleDrop_discards_result
        (env : Editor.Browser) (t0 : nat)
        (files : option (list Editor.File)) (st : Editor.EditorState) :
  Ui.handleFileChange env t0 files st = Ui.handleDrop env t0 files st /\
  (Ui.files_count files = 0 -> Ui.handleDrop env t0 files st = st) /\
  (Ui.files_count files <> 0 ->
   Editor.resultUrl (Ui.handleDrop env t0 files st) = None /\
   Editor.appState (Ui.handleDrop env t0 files st) = IDLE /\
   Editor.prompt (Ui.handleDrop env t0 files st) = Editor.prompt st).
Proof.
  split; [reflexivity|].
  destruct files as [[|f rest]|]; simpl; split; try congruence;
    try reflexivity.
  intros _.
  destruct (processFiles_spec env t0 (f :: rest) st) as (added & -> & _).
  repeat split.
Qed.

(** X12. After an upload the error message is empty exactly when every
    file handed over had a type starting with [image/]: an earlier
    message is cleared, and any skipped file leaves a message. *)
Theorem processFiles_error_iff_skipped
        (env : Editor.Browser) (t0 : nat)
        (selectedFiles : list Editor.File) (st : Editor.EditorState) :
  Editor.errorMessage (Editor.processFiles env t0 selectedFiles st)
  = EmptyString
  <-> forallb (fun f => JS.startsWith (Editor.type f) "image/") selectedFiles
      = true.
Proof.
  destruct (processFiles_spec env t0 selectedFiles st) as (added & -> & _).
  cbn [Editor.errorMessage]. rewrite concat_skip_messages_empty.
  induction selectedFiles as [|f rest IH]; simpl; [tauto|].
  destruct (JS.startsWith (Editor.type f) "image/"); simpl.
  - exact IH.
  - split; discriminate.
Qed.

(** X13. Two uploads in a row: the images of both accumulate, in order,
    behind those already there, while the error message left is that of
    the second upload alone (the skip messages of the first are lost). *)
Theorem processFiles_twice
        (env : Editor.Browser) (t1 t2 : nat)
        (first second : list Editor.File) (st : Editor.EditorState) :
  map Editor.file
      (Editor.uploadedImages
         (Editor.processFiles env t2 second
                              (Editor.processFiles env t1 first st)))
  = map Editor.file (Editor.uploadedImages st)
      ++ filter (fun f => JS.startsWith (Editor.type f) "image/")
                (first ++ second) /\
  Editor.errorMessage
    (Editor.processFiles env t2 second (Editor.processFiles env t1 first st))
  = Editor.errorMessage (Editor.processFiles env t2 second st).
Proof.
  destruct (processFiles_spec env t1 first st) as (added1 & -> & Hf1 & _).
  destruct (processFiles_spec env t2 second
              {| Editor.uploadedImages := Editor.uploadedImages st ++ added1;
                 Editor.resultUrl := None;
                 Editor.prompt := Editor.prompt st;
                 Editor.appState := IDLE;
                 Editor.errorMessage :=
                   String.concat
                     " "
                     (map Editor.skip_message
                          (filter
                             (fun f => negb (JS.startsWith (Editor.type f)
                                                           "image/"))
                             first)) |})
    as (added2 & -> & Hf2 & _).
  destruct (processFiles_spec env t2 second st) as (added & -> & _).
  cbn [Editor.uploadedImages Editor.errorMessage]. split; [|reflexivity].
  now rewrite !map_app, Hf1, Hf2, filter_app, app_assoc.
Qed.

Lemma filter_other_ids (idToRemove : string)
      (images : list Editor.UploadedImage) :
  ~ In idToRemove (map Editor.id images) ->
  filter (fun img => negb (String.eqb (Editor.id img) idToRemove)) images
  = images /\
  find (fun img => String.eqb (Editor.id img) idToRemove) images = None.
Proof.
  induction images as [|img images IH]; simpl; [split; reflexivity|].
  intros Hnot.
  destruct (String.eqb (Editor.id img) idToRemove) eqn:Hid.
  - apply String.eqb_eq in Hid. tauto.
  - destruct IH as [-> ->]; [tauto|]. split; reflexivity.
Qed.

(** X14. Removing an id that no uploaded image has, while some image is
    uploaded, changes nothing and revokes no object URL. *)
Theorem removeImage_unknown_id
        (idToRemove : string) (st : Editor.EditorState) :
  Editor.uploadedImages st <> [] ->
  ~ In idToRemove (map Editor.id (Editor.uploadedImages st)) ->
  Ui.removeImage idToRemove st = ([], st).
Proof.
  intros Hne Hnot. unfold Ui.removeImage.
  destruct (filter_other_ids _ _ Hnot) as [-> ->].
  destruct st as [images url p a m]. simpl in *.
  destruct images; [congruence | reflexivity].
Qed.

Lemma removeImage_unknown_id_witness :
  Editor.uploadedImages Scenario.with_result <> [] /\
  Ui.removeImage "no-such-id" Scenario.with_result
  = ([], Scenario.with_result).
Proof.
  assert (Hne : Editor.uploadedImages Scenario.with_result <> [])
    by discriminate.
  split; [exact Hne|].
  apply (removeImage_unknown_id "no-such-id" Scenario.with_result Hne).
  simpl. intros [H | [H | []]]; discriminate.
Defined.

(** X15. Removing an uploaded image, the ids being distinct: exactly that
    image leaves the list, the others keeping their order, and exactly
    its preview URL is revoked; the prompt and the error message stay.
    If other images remain, the result URL and the status stay too; if
    it was the last one, the result is discarded and the status returns
    to IDLE. *)
Theorem removeImage_removes_one
        (st : Editor.EditorState)
        (before after : list Editor.UploadedImage)
        (img : Editor.UploadedImage) :
  Editor.uploadedImages st = before ++ img :: after ->
  NoDup (map Editor.id (Editor.uploadedImages st)) ->
  Ui.removeImage (Editor.id img) st
  = ([Editor.previewUrl img],
     {| Editor.uploadedImages := before ++ after;
        Editor.resultUrl :=
          match before ++ after with
          | [] => None
          | _ :: _ => Editor.resultUrl st
          end;
        Editor.prompt := Editor.prompt st;
        Editor.appState :=
          match before ++ after with
          | [] => IDLE
          | _ :: _ => Editor.appState st
          end;
        Editor.errorMessage := Editor.errorMessage st |}).
Proof.
  intros Hsplit Hdistinct. unfold Ui.removeImage.
  rewrite Hsplit in *. rewrite map_app in Hdistinct. cbn [map] in Hdistinct.
  pose proof (NoDup_remove_2 _ _ _ Hdistinct) as Hnot.
  rewrite in_app_iff in Hnot.
  destruct (filter_other_ids (Editor.id img) before) as [Hfb Hfindb];
    [tauto|].
  destruct (filter_other_ids (Editor.id img) after) as [Hfa _]; [tauto|].
  rewrite filter_app. cbn [filter]. rewrite String.eqb_refl. cbn [negb].
  rewrite Hfb, Hfa.
  assert (Hfind : find (fun i => String.eqb (Editor.id i) (Editor.id img))
                       (before ++ img :: after) = Some img).
  { clear -Hfindb. induction before as [|b before IH]; simpl in *.
    - now rewrite String.eqb_refl.
    - destruct (String.eqb (Editor.id b) (Editor.id img));
        [discriminate | now apply IH]. }
  rewrite Hfind.
  destruct (before ++ after); reflexivity.
Qed.

Lemma removeImage_removes_one_witness :
  NoDup (map Editor.id (Editor.uploadedImages Scenario.with_result)) /\
  Ui.removeImage "photo.png-0-0.25" Scenario.with_result
  = (["blob:0/photo.png"],
     {| Editor.uploadedImages :=
          [ {| Editor.id := "cat.jpg-1-0.25";
               Editor.file := Scenario.jpeg_file;
               Editor.previewUrl := "blob:1/cat.jpg";
               Editor.mimeType := "image/jpeg" |} ];
        Editor.resultUrl := Some "data:image/png;base64,QUJD";
        Editor.prompt := "Remove from this image those green markers";
        Editor.appState := SUCCESS;
        Editor.errorMessage := EmptyString |}).
Proof.
  assert (Hdistinct :
            NoDup (map Editor.id
                       (Editor.uploadedImages Scenario.with_result))).
  { simpl. constructor.
    - simpl. intros [H | []]. discriminate.
    - constructor; [simpl; tauto | constructor]. }
  split; [exact Hdistinct|].
  exact (removeImage_removes_one
           Scenario.with_result []
           [ {| Editor.id := "cat.jpg-1-0.25";
                Editor.file := Scenario.jpeg_file;
                Editor.previewUrl := "blob:1/cat.jpg";
                Editor.mimeType := "image/jpeg" |} ]
           {| Editor.id := "photo.png-0-0.25";
              Editor.file := Sample.png_file;
              Editor.previewUrl := "blob:0/photo.png";
              Editor.mimeType := "image/png" |}
           eq_refl Hdistinct).
Defined.

(** X16. Clearing all images revokes the preview URL of every uploaded
    image, in order, and brings the editor back to the state it was
    mounted in, except that the prompt is kept; a generate action right
    after is blocked without any request. *)
Theorem clearAllImages_resets
        (generateContent : Sdk.GenerateContent) (st : Editor.EditorState) :
  fst (Ui.clearAllImages st)
  = map Editor.previewUrl (Editor.uploadedImages st) /\
  snd (Ui.clearAllImages st) = Ui.setPrompt (Editor.prompt st) Editor.initial /\
  Editor.handleGenerate generateContent (snd (Ui.clearAllImages st))
  = ([],
     Editor.setErrorMessage
       "Please upload at least one image and provide a prompt."
       (snd (Ui.clearAllImages st))).
Proof.
  repeat split.
Qed.

(** * What holds after any sequence of events *)

Lemma startsWith_append (p s : string) :
  JS.startsWith (p ++ s) p = true.
Proof.
  unfold JS.startsWith. induction p as [|a p IH]; simpl.
  - now destruct s.
  - destruct (ascii_dec a a); [exact IH | congruence].
Qed.

Lemma find_generated_image_data_uri (parts : list Sdk.Part) (s : string) :
  Service.find_generated_image parts = Some s ->
  JS.startsWith s "data:" = true.
Proof.
  induction parts as [|part rest IH]; simpl; [discriminate|].
  destruct (Sdk.inlineData part) as [blob|]; [|exact IH].
  destruct (JS.truthy_opt (Sdk.data blob)); [|exact IH].
  intros [= <-]. apply startsWith_append.
Qed.

Lemma parse_parts_data_uri (parts : list Sdk.Part) (img : string) :
  image (Service.parse_parts parts) = Some img ->
  JS.startsWith img "data:" = true.
Proof.
  destruct (Service.find_generated_image parts) as [s|] eqn:Hfound.
  - rewrite (parse_parts_image _ _ Hfound). intros [= <-].
    exact (find_generated_image_data_uri _ _ Hfound).
  - rewrite (parse_parts_no_image _ Hfound). discriminate.
Qed.

Lemma parse_response_data_uri (response : Sdk.GenerateContentResponse)
      (r : EditResponse) (img : string) :
  Service.parse_response response = ret r ->
  image r = Some img ->
  JS.startsWith img "data:" = true.
Proof.
  unfold Service.parse_response.
  destruct (Sdk.candidates response) as [[|candidate others]|];
    try (intros [= <-]; discriminate).
  destruct (Sdk.content candidate) as [content|]; [|discriminate].
  destruct (Sdk.content_parts content) as [parts|]; [|discriminate].
  intros [= <-]. apply parse_parts_data_uri.
Qed.

Lemma editImageWithGemini_data_uri
      (generateContent : Sdk.GenerateContent)
      (imageData : list Service.ImageData) (prompt : string)
      (r : EditResponse) (img : string) :
  outcome (Service.editImageWithGemini generateContent imageData prompt)
  = Fulfilled r ->
  image r = Some img ->
  JS.startsWith img "data:" = true.
Proof.
  destruct imageData as [|i rest].
  - rewrite editImageWithGemini_no_images. intros [= <-]. discriminate.
  - assert (Hne : i :: rest <> []) by discriminate.
    destruct (generateContent (Service.build_request (i :: rest) prompt))
      as [response|[e|v]] eqn:Hcall.
    + destruct (parse_response_cases response)
        as [(r' & Hparse & _) | (e & Hparse)].
      * rewrite (editImageWithGemini_parsed _ _ _ _ _ Hne Hcall Hparse).
        intros [= <-]. exact (parse_response_data_uri _ _ _ Hparse).
      * rewrite (editImageWithGemini_parse_throws
                   _ _ _ _ _ Hne Hcall Hparse).
        intros [= <-]. discriminate.
    + rewrite (editImageWithGemini_rejected _ _ _ _ Hne Hcall).
      intros [= <-]. discriminate.
    + rewrite (editImageWithGemini_rejected_nullish _ _ _ _ Hne Hcall).
      discriminate.
Qed.

Lemma handleGenerate_await_data_uri
      (generateContent : Sdk.GenerateContent) (render : Editor.EditorState)
      (r : EditResponse) (img : string) :
  outcome (Editor.handleGenerate_await generateContent render)
  = Fulfilled r ->
  image r = Some img ->
  JS.startsWith img "data:" = true.
Proof.
  unfold Editor.handleGenerate_await.
  destruct (Editor.promise_all _) as [imageParts|e]; [|discriminate].
  unfold bind, outcome.
  destruct (Service.editImageWithGemini generateContent imageParts
                                        (Editor.prompt render))
    as [log r'] eqn:Hcall.
  simpl. intros [= ->].
  apply (editImageWithGemini_data_uri generateContent imageParts
                                      (Editor.prompt render) r).
  now rewrite Hcall.
Qed.

Lemma processFiles_from_image_files
      (env : Editor.Browser) (t0 : nat)
      (selectedFiles : list Editor.File) (st : Editor.EditorState) :
  Forall Ui.from_image_file (Editor.uploadedImages st) ->
  Forall Ui.from_image_file
         (Editor.uploadedImages (Editor.processFiles env t0 selectedFiles st)).
Proof.
  intros Hold.
  destruct (processFiles_spec env t0 selectedFiles st)
    as (added & -> & Hfiles & Htypes).
  cbn [Editor.uploadedImages]. apply Forall_app. split; [exact Hold|].
  rewrite Forall_forall in *. intros img Hin. split; [now apply Htypes|].
  assert (Hf : In (Editor.file img) (map Editor.file added))
    by now apply in_map.
  rewrite Hfiles in Hf. now apply filter_In in Hf.
Qed.

Lemma Forall_filter {A} (P : A -> Prop) (f : A -> bool) (l : list A) :
  Forall P l -> Forall P (filter f l).
Proof.
  rewrite !Forall_forall. intros H x Hin.
  apply filter_In in Hin. now apply H.
Qed.

Lemma Forall_remove_nth {A} (P : A -> Prop) (n : nat) (l : list A) :
  Forall P l -> Forall P (Ui.remove_nth n l).
Proof.
  intros H. revert n.
  induction H as [|x l Hx Hl IH]; intros [|n]; simpl.
  - constructor.
  - constructor.
  - exact Hl.
  - constructor; [exact Hx | apply IH].
Qed.

Lemma handleGenerate_finish_status (settled : Settled EditResponse)
      (st : Editor.EditorState) :
  Editor.appState (Editor.handleGenerate_finish settled st) = SUCCESS \/
  Editor.appState (Editor.handleGenerate_finish settled st) = ERROR.
Proof.
  destruct settled as [response|e]; simpl; [|now right].
  destruct (success response && JS.truthy_opt (image response));
    [now left | now right].
Qed.

Lemma mounted_invariant : Reach.invariant Ui.mounted.
Proof.
  constructor; simpl; try discriminate; constructor.
Qed.

Lemma upload_invariant (env : Editor.Browser)
      (files : option (list Editor.File)) (s : Ui.Session) :
  Reach.invariant s ->
  Reach.invariant
    {| Ui.editor := Ui.handleDrop env (Ui.ticks s) files (Ui.editor s);
       Ui.outstanding := Ui.outstanding s;
       Ui.ticks := Ui.ticks s + Ui.accepted_count files;
       Ui.revoked := Ui.revoked s |}.
Proof.
  intros Hinv.
  destruct files as [[|f rest]|]; simpl;
    try (destruct Hinv; constructor; assumption).
  pose proof (processFiles_from_image_files env (Ui.ticks s) (f :: rest)
                (Ui.editor s) (Reach.inv_uploads s Hinv)) as Hup.
  destruct (processFiles_spec env (Ui.ticks s) (f :: rest) (Ui.editor s))
    as (added & Heq & _).
  rewrite Heq in *.
  constructor; simpl; try discriminate.
  - exact Hup.
  - exact (Reach.inv_outstanding s Hinv).
Qed.

Lemma step_invariant (generateContent : Sdk.GenerateContent)
      (env : Editor.Browser) (s : Ui.Session) (e : Ui.Event) :
  Reach.invariant s -> Reach.invariant (Ui.step generateContent env s e).
Proof.
  intros Hinv. destruct e as [files|files|idToRemove| |v| |n]; simpl.
  - exact (upload_invariant env files s Hinv).
  - exact (upload_invariant env files s Hinv).
  - destruct Hinv as [Hup Hres Hsucc Herr Hproc Hout].
    unfold Ui.removeImage.
    destruct (Nat.eqb _ 0); constructor; simpl; try discriminate;
      try assumption; apply Forall_filter; assumption.
  - destruct Hinv as [Hup Hres Hsucc Herr Hproc Hout].
    constructor; simpl; try discriminate; try assumption. constructor.
  - destruct Hinv as [Hup Hres Hsucc Herr Hproc Hout].
    constructor; simpl; assumption.
  - destruct Hinv as [Hup Hres Hsucc Herr Hproc Hout].
    unfold Editor.handleGenerate_begin.
    destruct (Editor.submission_blocked (Ui.editor s)) eqn:Hblocked;
      constructor; simpl; try discriminate; try assumption.
    + intros _. now destruct (Ui.outstanding s).
    + apply Forall_app. split; [assumption|].
      constructor; [|constructor]. split; assumption.
  - destruct (nth_error (Ui.outstanding s) n) as [render|] eqn:Hnth;
      [|exact Hinv].
    destruct Hinv as [Hup Hres Hsucc Herr Hproc Hout].
    pose proof (handleGenerate_await_data_uri generateContent render)
      as Huri.
    pose proof (handleGenerate_await_shape generateContent render)
      as Hshape.
    destruct (outcome (Editor.handleGenerate_await generateContent render))
      as [response|err].
    + destruct Hshape as [(e' & He') | (r & [= <-] & Hshape)];
        [discriminate|].
      destruct Hshape as [img Himg | msg Hmsg].
      * apply truthy_nonempty in Himg.
        constructor; simpl; rewrite ?Himg; simpl; try discriminate;
          try assumption.
        -- intros url [= <-]. now apply (Huri _ img eq_refl).
        -- now apply Forall_remove_nth.
      * constructor; simpl; try discriminate; try assumption.
        -- intros _. destruct msg; [congruence | discriminate].
        -- now apply Forall_remove_nth.
    + constructor; simpl; try discriminate; try assumption.
      now apply Forall_remove_nth.
Qed.

Lemma run_invariant (generateContent : Sdk.GenerateContent)
      (env : Editor.Browser) (events : list Ui.Event) :
  Reach.invariant (Ui.run generateContent env events).
Proof.
  unfold Ui.run.
  assert (H : forall s, Reach.invariant s ->
                        Reach.invariant
                          (fold_left (Ui.step generateContent env) events s)).
  { induction events as [|e events IH]; intros s Hs; simpl; [exact Hs|].
    apply IH, step_invariant, Hs. }
  apply H, mounted_invariant.
Qed.

Lemma submittable_requests (generateContent : Sdk.GenerateContent)
      (render : Editor.EditorState)
      (request : Sdk.GenerateContentParameters) :
  Reach.submittable render ->
  In request (requests (Editor.handleGenerate_await generateContent render)) ->
  Reach.well_formed_request request.
Proof.
  intros [Hpass Hfiles] Hin.
  assert (Hnot : ~ (Editor.uploadedImages render = [] \/
                    blank (Editor.prompt render))).
  { rewrite <- submission_blocked_iff. congruence. }
  assert (Hne : Editor.uploadedImages render <> []) by tauto.
  destruct (Forall_dec
              (fun img => Editor.readable (Editor.file img) = true)
              (fun img => bool_dec (Editor.readable (Editor.file img)) true)
              (Editor.uploadedImages render)) as [Hread | Hbad].
  - rewrite (handleGenerate_await_readable _ _ Hne Hread) in Hin.
    rewrite editImageWithGemini_request in Hin
      by (destruct (Editor.uploadedImages render);
          [congruence | discriminate]).
    destruct Hin as [<- | []].
    eexists _, _. split; [reflexivity|]. split; [tauto|]. split.
    + destruct (Editor.uploadedImages render); [congruence | discriminate].
    + rewrite map_map. apply Forall_map.
      eapply Forall_impl; [|exact Hfiles].
      intros img [Hmime Himage]. eexists _, _. split; [reflexivity|].
      cbn [Service.mimeType]. now rewrite Hmime.
  - rewrite (handleGenerate_await_unreadable _ _ Hbad) in Hin.
    destruct Hin.
Qed.

(** X17. After any sequence of events, every uploaded image held by the
    editor comes from a file whose type starts with [image/], and carries
    that type as its content type. *)
Theorem run_uploads_are_image_files
        (generateContent : Sdk.GenerateContent) (env : Editor.Browser)
        (events : list Ui.Event) :
  Forall Ui.from_image_file
         (Editor.uploadedImages
            (Ui.editor (Ui.run generateContent env events))).
Proof.
  exact (Reach.inv_uploads _ (run_invariant generateContent env events)).
Qed.

(** X18. After any sequence of events, a result URL on display is a
    [data:] URI, and the status SUCCESS is never shown without a result
    URL. *)
Theorem run_result_is_data_uri
        (generateContent : Sdk.GenerateContent) (env : Editor.Browser)
        (events : list Ui.Event) :
  (forall url,
      Editor.resultUrl (Ui.editor (Ui.run generateContent env events))
      = Some url ->
      JS.startsWith url "data:" = true) /\
  (Editor.appState (Ui.editor (Ui.run generateContent env events)) = SUCCESS ->
   exists url,
     Editor.resultUrl (Ui.editor (Ui.run generateContent env events))
     = Some url).
Proof.
  pose proof (run_invariant generateContent env events) as Hinv.
  split; [exact (Reach.inv_result _ Hinv)|].
  intros Hs. apply (Reach.inv_success _ Hinv) in Hs.
  destruct (Editor.resultUrl _) as [url|]; [now exists url | congruence].
Qed.

(** X19. After any sequence of events, the status ERROR always comes with
    a non-empty error message. *)
Theorem run_error_has_message
        (generateContent : Sdk.GenerateContent) (env : Editor.Browser)
        (events : list Ui.Event) :
  Editor.appState (Ui.editor (Ui.run generateContent env events)) = ERROR ->
  Editor.errorMessage (Ui.editor (Ui.run generateContent env events))
  <> EmptyString.
Proof.
  exact (Reach.inv_error _ (run_invariant generateContent env events)).
Qed.

Lemma run_error_has_message_witness :
  Editor.appState
    (Ui.editor (Ui.run (Sample.failing "offline") Sample.browser
                       Scenario.settled))
  = ERROR /\
  Editor.errorMessage
    (Ui.editor (Ui.run (Sample.failing "offline") Sample.browser
                       Scenario.settled))
  <> EmptyString.
Proof.
  split; [reflexivity|].
  apply (run_error_has_message (Sample.failing "offline") Sample.browser
                               Scenario.settled).
  reflexivity.
Defined.

(** X20. After any sequence of events, the status PROCESSING is shown only
    while some generate action is still awaiting its call. *)
Theorem run_processing_has_outstanding
        (generateContent : Sdk.GenerateContent) (env : Editor.Browser)
        (events : list Ui.Event) :
  Editor.appState (Ui.editor (Ui.run generateContent env events))
  = PROCESSING ->
  Ui.outstanding (Ui.run generateContent env events) <> [].
Proof.
  exact (Reach.inv_processing _ (run_invariant generateContent env events)).
Qed.

Lemma run_processing_has_outstanding_witness :
  Editor.appState
    (Ui.editor (Ui.run (Sample.failing "offline") Sample.browser
                       Scenario.generating))
  = PROCESSING /\
  Ui.outstanding (Ui.run (Sample.failing "offline") Sample.browser
                         Scenario.generating)
  <> [].
Proof.
  split; [reflexivity|].
  apply (run_processing_has_outstanding (Sample.failing "offline")
                                        Sample.browser Scenario.generating).
  reflexivity.
Defined.

(** X21. After any sequence of events, every request that a generate
    action still under way submits is well formed: a text part whose
    prompt is not blank, followed by at least one inline part, each with
    a content type starting with [image/]. *)
Theorem run_requests_well_formed
        (generateContent : Sdk.GenerateContent) (env : Editor.Browser)
        (events : list Ui.Event) (render : Editor.EditorState)
        (request : Sdk.GenerateContentParameters) :
  In render (Ui.outstanding (Ui.run generateContent env events)) ->
  In request (requests (Editor.handleGenerate_await generateContent render)) ->
  Reach.well_formed_request request.
Proof.
  intros Hrender Hrequest.
  pose proof (Reach.inv_outstanding
                _ (run_invariant generateContent env events)) as Hout.
  rewrite Forall_forall in Hout.
  exact (submittable_requests _ _ _ (Hout _ Hrender) Hrequest).
Qed.

Lemma run_requests_well_formed_witness :
  In (Sample.one_upload Sample.png_file)
     (Ui.outstanding (Ui.run (Sample.failing "offline") Sample.browser
                             Scenario.generating)) /\
  In (Service.build_request Sample.imageData
        "Remove from this image those green markers")
     (requests (Editor.handleGenerate_await
                  (Sample.failing "offline")
                  (Sample.one_upload Sample.png_file))) /\
  Reach.well_formed_request
    (Service.build_request Sample.imageData
       "Remove from this image those green markers").
Proof.
  assert (Hrender :
            In (Sample.one_upload Sample.png_file)
               (Ui.outstanding (Ui.run (Sample.failing "offline")
                                       Sample.browser Scenario.generating)))
    by (left; reflexivity).
  assert (Hrequest :
            In (Service.build_request Sample.imageData
                  "Remove from this image those green markers")
               (requests (Editor.handleGenerate_await
                            (Sample.failing "offline")
                            (Sample.one_upload Sample.png_file))))
    by (left; reflexivity).
  split; [exact Hrender|]. split; [exact Hrequest|].
  exact (run_requests_well_formed _ _ _ _ _ Hrender Hrequest).
Defined.
